(** * Advanced HTTPS OTA test harness: fault injector, services and scenarios

    A shallow embedding of
    [examples/system/ota/advanced_https_ota/pytest_advanced_ota.py].

    Files are byte lists held in a finite map from paths to contents,
    Python integers are [Z], exceptions are values of [exn] carried by
    [result], and the scenarios run in a small state-and-exception monad
    over a [world] that holds the file system, the process table, the local
    handle variables and the trace of what the coordinator did. *)

From Stdlib Require Import ZArith List Ascii String Lia Bool DecimalString.
From stdpp Require Import base tactics option list gmap strings.

Local Open Scope string_scope.
Local Open Scope list_scope.
Local Open Scope Z_scope.

(** ** Python values, exceptions and byte buffers *)

Inductive exn : Type :=
  | FileNotFoundError
  | IndexError
  | StructError
  | RuntimeError
  | SocketError          (* socket.error, an alias of OSError *)
  | OSError
  | TIMEOUT              (* pexpect.exceptions.TIMEOUT *)
  | ValueError
  | AttributeError
  | AssertionError
  | TypeError
  | ZeroDivisionError
  | UnboundLocalError
  | KeyboardInterrupt.

Inductive result (A : Type) : Type :=
  | Ok (a : A)
  | Raise (e : exn).
Arguments Ok {A} a.
Arguments Raise {A} e.

Definition rbind {A B} (r : result A) (k : A -> result B) : result B :=
  match r with
  | Ok a => k a
  | Raise e => Raise e
  end.

Declare Scope result_scope.
Delimit Scope result_scope with result.
Notation "x <- r ;; k" := (rbind r (fun x => k))
  (at level 100, r at next level, right associativity) : result_scope.

Definition exn_eqb (a b : exn) : bool :=
  match a, b with
  | FileNotFoundError, FileNotFoundError | IndexError, IndexError
  | StructError, StructError | RuntimeError, RuntimeError
  | SocketError, SocketError | OSError, OSError | TIMEOUT, TIMEOUT
  | ValueError, ValueError | AttributeError, AttributeError
  | AssertionError, AssertionError | TypeError, TypeError
  | ZeroDivisionError, ZeroDivisionError
  | UnboundLocalError, UnboundLocalError
  | KeyboardInterrupt, KeyboardInterrupt => true
  | _, _ => false
  end.

(** [socket.error] and [IOError] are both [OSError] in Python 3, and
    [FileNotFoundError] is one of its subclasses. *)
Definition is_OSError (e : exn) : bool :=
  match e with
  | OSError | SocketError | FileNotFoundError => true
  | _ => false
  end.

Abbreviation bytes := (list Z).

(** [buf[i]] on a [bytearray] or a list. *)
Definition getitem (buf : bytes) (i : nat) : result Z :=
  match buf !! i with
  | Some b => Ok b
  | None => Raise IndexError
  end.

(** [buf[i] = v]: Python raises out of range, it does not extend. *)
Definition setitem (buf : bytes) (i : nat) (v : Z) : result bytes :=
  if (i <? length buf)%nat then Ok (<[i:=v]> buf) else Raise IndexError.

(** [struct.pack('B', v)] *)
Definition struct_pack_B (v : Z) : result bytes :=
  if (0 <=? v) && (v <=? 255) then Ok [v] else Raise StructError.

(** [f.read(n)] from position 0: a negative size reads to the end. *)
Definition read (n : Z) (content : bytes) : bytes :=
  if n <? 0 then content else take (Z.to_nat n) content.

(** [f.write(data)] at position [pos] of a file holding [content]: bytes
    under the data are replaced, a gap after the end is filled with zero
    bytes, the rest of the file stays. *)
Definition write_at (pos : nat) (data content : bytes) : bytes :=
  take pos content ++ replicate (pos - length content) 0 ++ data
    ++ drop (pos + length data) content.

(** [os.path.join(a, b)] of [posixpath]. *)
Definition startswith_slash (s : string) : bool :=
  match s with
  | String c _ => Ascii.eqb c "/"%char
  | EmptyString => false
  end.

Fixpoint endswith_slash (s : string) : bool :=
  match s with
  | EmptyString => false
  | String c EmptyString => Ascii.eqb c "/"%char
  | String _ s' => endswith_slash s'
  end.

Definition os_path_join (a b : string) : string :=
  if startswith_slash b then b
  else if String.eqb a EmptyString || endswith_slash a then a +:+ b
  else a +:+ "/" +:+ b.

(** [str(n)] for an integer. *)
Definition str (n : Z) : string := NilZero.string_of_int (Z.to_int n).

(** ** The random source

    [random] is a stream of raw draws; [_randbelow(n)] reduces the next draw
    into [0, n). *)
Definition rng := nat -> Z.

Definition randbelow (g : rng) (k : nat) (n : Z) : Z := g k mod n.

(** [random.randrange(start, stop, step)] for a positive step, on draw
    number [k]; an empty range is a [ValueError]. The caller advances [k]. *)
Definition randrange (g : rng) (k : nat) (start stop step : Z) : result Z :=
  let n := (stop - start + step - 1) / step in
  if n <=? 0 then Raise ValueError
  else Ok (start + step * randbelow g k n).

(** [random.randint(a, b)] is [randrange(a, b + 1)]. *)
Definition randint (g : rng) (k : nat) (a b : Z) : result Z :=
  randrange g k a (b + 1) 1.

(** ** Fault injector *)

Module FaultInjector.

Definition HEADER_SIZE : nat := 512.
Definition TARGET_OFFSET_MIN_REV : nat := 15.   (* 0x0F *)
Definition TARGET_OFFSET_MAX_REV : nat := 17.   (* 0x11 *)

Definition bin_name := "advanced_https_ota.bin".

(** [modify_chip_revision(app_path, min_rev, max_rev, increment_min)] *)
Definition modify_chip_revision (fs : gmap string bytes) (app_path : string)
    (min_rev max_rev : option Z) (increment_min : bool)
    : result (gmap string bytes) :=
  match fs !! app_path with
  | None => Raise FileNotFoundError
  | Some content =>
      let header := read (Z.of_nat HEADER_SIZE) content in
      (header <-
         (if increment_min then
            v <- getitem header TARGET_OFFSET_MIN_REV ;;
            setitem header TARGET_OFFSET_MIN_REV (Z.land (v + 1) 255)
          else
            match min_rev with
            | Some m => setitem header TARGET_OFFSET_MIN_REV (Z.land m 255)
            | None => Ok header
            end) ;;
       header <-
         match max_rev with
         | Some m => setitem header TARGET_OFFSET_MAX_REV (Z.land m 255)
         | None => Ok header
         end ;;
       Ok (<[app_path := write_at 0 header content]> fs))%result
  end.

(** The operating system under a call of [modify_chip_revision]: which
    paths are directories, and the exception, if any, that opening and
    reading the file, and reopening and writing it, raise. *)
Record os_faults : Type := {
  directories : list string;
  on_read : option exn;
  on_write : option exn
}.

Definition no_faults : os_faults :=
  {| directories := []; on_read := None; on_write := None |}.

Definition fault (o : option exn) : result unit :=
  match o with
  | Some e => Raise e
  | None => Ok tt
  end.

(** [try: body except IOError as e: raise RuntimeError(...)] *)
Definition except_IOError {A} (body : result A) : result A :=
  match body with
  | Ok a => Ok a
  | Raise e => if is_OSError e then Raise RuntimeError else Raise e
  end.

(** [modify_chip_revision] with the operating system's failures: the
    existence check comes before the [try]; opening a directory is an
    [OSError]; the open and read, the edits of the header and the reopen
    and write are inside the [try], whose [except IOError] turns an
    [OSError] into a [RuntimeError]. *)
Definition modify_chip_revision_io (os : os_faults) (fs : gmap string bytes)
    (app_path : string) (min_rev max_rev : option Z) (increment_min : bool)
    : result (gmap string bytes) :=
  if negb (bool_decide (is_Some (fs !! app_path))
           || bool_decide (app_path ∈ directories os))
  then Raise FileNotFoundError
  else
    except_IOError
      (content <- match fs !! app_path with
                  | Some c => Ok c
                  | None => Raise OSError      (* IsADirectoryError *)
                  end ;;
       _ <- fault (on_read os) ;;
       let header := read (Z.of_nat HEADER_SIZE) content in
       header <-
         (if increment_min then
            v <- getitem header TARGET_OFFSET_MIN_REV ;;
            setitem header TARGET_OFFSET_MIN_REV (Z.land (v + 1) 255)
          else
            match min_rev with
            | Some m => setitem header TARGET_OFFSET_MIN_REV (Z.land m 255)
            | None => Ok header
            end) ;;
       header <-
         match max_rev with
         | Some m => setitem header TARGET_OFFSET_MAX_REV (Z.land m 255)
         | None => Ok header
         end ;;
       _ <- fault (on_write os) ;;
       Ok (<[app_path := write_at 0 header content]> fs))%result.

(** The copy idiom of the two truncation scenarios:
    [[
    with open(binary_file, 'rb+') as f:
        with open(out, 'wb+') as output_file:
            output_file.write(f.read(size))
    ]]
    ['wb+'] empties the output before the source is read. *)
Definition copy_prefix (fs : gmap string bytes) (binary_file out : string)
    (size : Z) : result (gmap string bytes) :=
  match fs !! binary_file with
  | None => Raise FileNotFoundError
  | Some _ =>
      let fs1 := <[out := []]> fs in
      let data := read size (default [] (fs1 !! binary_file)) in
      Ok (<[out := write_at 0 data []]> fs1)
  end.

Definition truncated_bin_name := "truncated.bin".
Definition truncated_bin_size : Z := 64000.

Definition truncated_header_bin_name := "truncated_header.bin".
Definition truncated_header_bin_size : Z := 180.

Definition truncated_bin (fs : gmap string bytes) (binary_path : string)
    : result (gmap string bytes) :=
  copy_prefix fs (os_path_join binary_path bin_name)
    (os_path_join binary_path truncated_bin_name) truncated_bin_size.

Definition truncated_header (fs : gmap string bytes) (binary_path : string)
    : result (gmap string bytes) :=
  copy_prefix fs (os_path_join binary_path bin_name)
    (os_path_join binary_path truncated_header_bin_name)
    truncated_header_bin_size.

(** The random image: one zero byte, then [size - 1] packed draws of
    [random.randrange(0, 255, 1)], each appended to the output. Returns the
    bytes written and the number of the next draw. *)
Fixpoint random_fill (g : rng) (k : nat) (count : nat) (acc : bytes)
    : result (bytes * nat) :=
  match count with
  | O => Ok (acc, k)
  | S count' =>
      (v <- randrange g k 0 255 1 ;;
       b <- struct_pack_B v ;;
       random_fill g (S k) count' (acc ++ b))%result
  end.

Definition random_bin_name := "random.bin".
Definition random_bin_size : Z := 32000.

Definition random_content (g : rng) (k : nat) (size : Z)
    : result (bytes * nat) :=
  (first <- struct_pack_B 0 ;;
   random_fill g k (Z.to_nat (size - 1)) first)%result.

Definition random_bin (g : rng) (k : nat) (fs : gmap string bytes)
    (binary_path : string) : result (gmap string bytes * nat) :=
  (r <- random_content g k random_bin_size ;;
   Ok (<[os_path_join binary_path random_bin_name := fst r]> fs, snd r))%result.

(** The image with an invalid chip id: the first 2000 bytes of the source
    as a list, element 13 replaced, written to [random.bin]. *)
Definition invalid_chip_id_size : Z := 2000.
Definition CHIP_ID_OFFSET : nat := 13.

Definition invalid_chip_id_bin (fs : gmap string bytes) (binary_path : string)
    : result (gmap string bytes) :=
  match fs !! os_path_join binary_path bin_name with
  | None => Raise FileNotFoundError
  | Some content =>
      (data <- setitem (read invalid_chip_id_size content) CHIP_ID_OFFSET 254 ;;
       Ok (<[os_path_join binary_path random_bin_name := data]> fs))%result
  end.

(** The image with a lower security version: the whole source copied, then
    [seek(36)] and one zero byte written. *)
Definition anti_rollback_bin_name := "advanced_https_ota_lower_sec_version.bin".
Definition SECURE_VERSION_OFFSET : nat := 36.

Definition anti_rollback_bin (fs : gmap string bytes) (binary_path : string)
    : result (gmap string bytes) :=
  let binary_file := os_path_join binary_path bin_name in
  let out := os_path_join binary_path anti_rollback_bin_name in
  match fs !! binary_file with
  | None => Raise FileNotFoundError
  | Some content =>
      let file_size := Z.of_nat (length content) in
      let fs1 := <[out := []]> fs in
      let copied := write_at 0 (read file_size (default [] (fs1 !! binary_file))) [] in
      Ok (<[out := write_at SECURE_VERSION_OFFSET [0] copied]> fs1)
  end.

(** The image padded to a multiple of 289 bytes with random bytes. *)
Definition aligned_bin_name := "aligned.bin".

Definition aligned_bin (g : rng) (k : nat) (fs : gmap string bytes)
    (binary_path : string) : result (gmap string bytes * nat) :=
  let binary_file := os_path_join binary_path bin_name in
  let out := os_path_join binary_path aligned_bin_name in
  match fs !! binary_file with
  | None => Raise FileNotFoundError
  | Some content =>
      let bin_size := Z.of_nat (length content) in
      let dummy_data_size := 289 - bin_size mod 289 in
      let fs1 := <[out := []]> fs in
      let copied := write_at 0 (read bin_size (default [] (fs1 !! binary_file))) [] in
      (r <- random_fill g k (Z.to_nat dummy_data_size) copied ;;
       Ok (<[out := fst r]> fs1, snd r))%result
  end.

End FaultInjector.

(** ** Network services *)

Module Services.

(** [try: body except socket.error: pass] *)
Definition except_socket_error (body : result unit) : result unit :=
  match body with
  | Ok tt => Ok tt
  | Raise e => if is_OSError e then Ok tt else Raise e
  end.

(** What the socket layer does under one request of the file server: the
    outcome of the inherited [RangeRequestHandler.handle], whether the write
    stream is already closed, and the outcomes of flushing and closing the
    streams. *)
Record connection : Type := {
  RangeRequestHandler_handle : result unit;
  wfile_closed : bool;
  wfile_flush : result unit;
  wfile_close : result unit;
  rfile_close : result unit
}.


(** [https_request_handler().handle] *)
Definition RequestHandler_handle (c : connection) : result unit :=
  except_socket_error (RangeRequestHandler_handle c).

(** HTTP requests, and what a handler has buffered and written to the
    client while it answers one. *)
Record request : Type := {
  command : string;
  path : string;
  request_version : string
}.

Inductive output : Type :=
  | StatusLine (code : Z)
  | HeaderLine (keyword value : string)
  | EndOfHeaders
  | Body (content : bytes).

Record exchange : Type := {
  req : request;
  headers_buffer : list output;
  wfile : list output
}.

(** A request line without a version ("GET /path") is an HTTP/0.9 request. *)
Definition is_HTTP_0_9 (x : exchange) : bool :=
  String.eqb (request_version (req x)) "HTTP/0.9".

(** [send_response_only], [send_header] and [end_headers] of
    [BaseHTTPRequestHandler]: each is skipped for an HTTP/0.9 request;
    otherwise the first two add a line to the header buffer and the third
    ends the headers and flushes the buffer to the client. *)
Definition send_response_only (code : Z) (x : exchange) : exchange :=
  if is_HTTP_0_9 x then x
  else {| req := req x;
          headers_buffer := headers_buffer x ++ [StatusLine code];
          wfile := wfile x |}.

Definition send_header (keyword value : string) (x : exchange) : exchange :=
  if is_HTTP_0_9 x then x
  else {| req := req x;
          headers_buffer := headers_buffer x ++ [HeaderLine keyword value];
          wfile := wfile x |}.

Definition end_headers (x : exchange) : exchange :=
  if is_HTTP_0_9 x then x
  else {| req := req x;
          headers_buffer := [];
          wfile := wfile x ++ headers_buffer x ++ [EndOfHeaders] |}.

(** [send_response]: the status line, then the [Server] and [Date]
    headers, whose values the server provides. *)
Definition send_response (server_version date : string) (code : Z)
    (x : exchange) : exchange :=
  send_header "Date" date
    (send_header "Server" server_version (send_response_only code x)).

(** [redirect_handler_factory(url)]: the class overrides [do_GET] and
    [handle]; nothing in it writes to the client after the headers. *)
Record RedirectHandler : Type := {
  do_GET : exchange -> exchange;
  handle : result unit -> result unit
}.

Definition redirect_handler_factory (server_version date : string)
    (url : string) : RedirectHandler :=
  {| do_GET := fun x =>
       end_headers
         (send_header "Location" url (send_response server_version date 301 x));
     handle := except_socket_error |}.

(** What a started service is: its working directory, the address it binds,
    the certificate and key its socket is wrapped with (if any), and what
    answers the requests. *)
Inductive handler_kind : Type :=
  | RangeFileHandler                   (* https_request_handler() *)
  | RedirectTo (url : string)          (* redirect_handler_factory(url) *)
  | OpensslWWW.                        (* openssl s_server -WWW *)

Record server : Type := {
  cwd : string;
  host : string;
  port : Z;
  tls : option (string * string);
  handler : handler_kind
}.

Section Certificates.
(** The directory of the test module, [os.path.dirname(os.path.abspath(__file__))]. *)
Variable here : string.

Definition server_file := os_path_join here "test_certs/server_cert.pem".
Definition key_file := os_path_join here "test_certs/server_key.pem".

(** [start_https_server(ota_image_dir, server_ip, server_port)] *)
Definition start_https_server (ota_image_dir server_ip : string)
    (server_port : Z) : server :=
  {| cwd := ota_image_dir;
     host := server_ip;
     port := server_port;
     tls := Some (server_file, key_file);
     handler := RangeFileHandler |}.

(** [start_chunked_server(ota_image_dir, server_port)] *)
Definition start_chunked_server (ota_image_dir : string) (server_port : Z)
    : server :=
  {| cwd := ota_image_dir;
     host := "0.0.0.0";
     port := server_port;
     tls := Some (server_file, key_file);
     handler := OpensslWWW |}.

(** [start_redirect_server(ota_image_dir, server_ip, server_port, redirection_port)] *)
Definition start_redirect_server (ota_image_dir server_ip : string)
    (server_port redirection_port : Z) : server :=
  {| cwd := ota_image_dir;
     host := server_ip;
     port := server_port;
     tls := Some (server_file, key_file);
     handler :=
       RedirectTo ("https://" +:+ server_ip +:+ ":" +:+ str redirection_port
                   +:+ "/advanced_https_ota.bin") |}.
End Certificates.

(** The [do_GET] that answers the requests of a redirect service. *)
Definition server_do_GET (server_version date : string) (s : server)
    : option (exchange -> exchange) :=
  match handler s with
  | RedirectTo url => Some (do_GET (redirect_handler_factory server_version date url))
  | _ => None
  end.

End Services.

(** ** Scenario runner *)

Module Runner.
Import Services.

(** Processes: [multiprocessing.Process] and [subprocess.Popen] objects. *)
Inductive pstate : Type := Created | Running | Terminated.

Record proc : Type := {
  target : server;
  daemon : bool;
  state : pstate
}.

(** The handle variables of the test functions. *)
Inductive var : Type := thread1 | thread2 | thread3 | chunked_server.

Definition var_eqb (a b : var) : bool :=
  match a, b with
  | thread1, thread1 | thread2, thread2 | thread3, thread3
  | chunked_server, chunked_server => true
  | _, _ => false
  end.

(** What the coordinator did, in order. *)
Inductive event : Type :=
  | EvExpect (pattern : string) (timeout : option Z)
  | EvWrite (line : string)
  | EvHardReset
  | EvErasePartition (name : string)
  | EvEraseFlash
  | EvFlash
  | EvSleep (seconds : Z)
  | EvStart (h : nat)
  | EvTerminate (h : nat)
  | EvKill (h : nat)
  | EvRemove (path : string).

Inductive cfgval : Type :=
  | CfgInt (z : Z)
  | CfgBool (b : bool)
  | CfgStr (s : string).

(** Everything the coordinator does not decide: the random draws, whether
    the [k]-th call into the device, the host or the operating system
    raises, the text an expectation captures, and the build metadata. *)
Record env : Type := {
  random : rng;
  outcome : nat -> option exn;
  capture : nat -> string;
  script_dir : string;
  binary_path : string;
  sdkconfig : string -> option cfgval;
  parse_int : string -> option Z;
  host_ip4_by_dest_ip : string -> string;
  env_config_variable : string -> string -> string
}.

Record world : Type := {
  fs : gmap string bytes;
  procs : list proc;
  vars : var -> option nat;
  trace : list event;
  calls : nat;
  draws : nat
}.

Definition M (A : Type) : Type := env -> world -> result A * world.

Definition ret {A} (a : A) : M A := fun _ w => (Ok a, w).

Definition raise {A} (e : exn) : M A := fun _ w => (Raise e, w).

Definition bind {A B} (m : M A) (k : A -> M B) : M B :=
  fun e w =>
    match m e w with
    | (Ok a, w') => k a e w'
    | (Raise x, w') => (Raise x, w')
    end.

Declare Scope scenario_scope.
Delimit Scope scenario_scope with scenario.
Notation "x <- m ;; k" := (bind m (fun x => k))
  (at level 100, m at next level, right associativity) : scenario_scope.
Notation "m ;; k" := (bind m (fun _ => k))
  (at level 100, right associativity) : scenario_scope.
Local Open Scope scenario_scope.

(** [try: body finally: fin]: the finaliser runs on both exits, and an
    exception of its own replaces the pending one. *)
Definition try_finally {A} (body : M A) (fin : M unit) : M A :=
  fun e w =>
    match body e w with
    | (r, w') =>
        match fin e w' with
        | (Ok _, w'') => (r, w'')
        | (Raise x, w'') => (Raise x, w'')
        end
    end.

(** [try: body except <class>: handler] *)
Definition try_except {A} (body : M A) (catches : exn -> bool)
    (handler : M A) : M A :=
  fun e w =>
    match body e w with
    | (Ok a, w') => (Ok a, w')
    | (Raise x, w') => if catches x then handler e w' else (Raise x, w')
    end.

(** [for _ in range(n): body] *)
Fixpoint for_range (n : nat) (body : M unit) : M unit :=
  match n with
  | O => ret tt
  | S n' => body ;; for_range n' body
  end.

Definition lift {A} (r : result A) : M A := fun _ w => (r, w).

Definition ask {A} (f : env -> A) : M A := fun e w => (Ok (f e), w).

Definition log (ev : event) : M unit :=
  fun _ w =>
    (Ok tt,
     {| fs := fs w; procs := procs w; vars := vars w;
        trace := trace w ++ [ev]; calls := calls w; draws := draws w |}).

(** One call into the environment: it returns its number, or raises what
    the environment decides. *)
Definition call : M nat :=
  fun e w =>
    let w' := {| fs := fs w; procs := procs w; vars := vars w;
                 trace := trace w; calls := S (calls w); draws := draws w |} in
    match outcome e (calls w) with
    | None => (Ok (calls w), w')
    | Some x => (Raise x, w')
    end.

(** *** The device *)

Definition dut_expect (pattern : string) (timeout : option Z) : M string :=
  log (EvExpect pattern timeout) ;;
  k <- call ;;
  c <- ask capture ;;
  ret (c k).

Definition dut_write (line : string) : M unit :=
  log (EvWrite line) ;; call ;; ret tt.

Definition dut_serial_hard_reset : M unit :=
  log EvHardReset ;; call ;; ret tt.

Definition dut_serial_erase_partition (name : string) : M unit :=
  log (EvErasePartition name) ;; call ;; ret tt.

Definition dut_serial_erase_flash : M unit :=
  log EvEraseFlash ;; call ;; ret tt.

Definition dut_serial_flash : M unit :=
  log EvFlash ;; call ;; ret tt.

Definition get_host_ip4_by_dest_ip (ip : string) : M string :=
  call ;; f <- ask host_ip4_by_dest_ip ;; ret (f ip).

Definition get_env_config_variable (env_name key : string) : M string :=
  call ;; f <- ask env_config_variable ;; ret (f env_name key).

Definition time_sleep (seconds : Z) : M unit :=
  log (EvSleep seconds) ;; call ;; ret tt.

(** [int(x)] on a configuration value ([None] is a [TypeError]). *)
Definition int_of_cfg (v : option cfgval) : M Z :=
  match v with
  | Some (CfgInt z) => ret z
  | Some (CfgBool b) => ret (if b then 1 else 0)
  | Some (CfgStr s) =>
      p <- ask parse_int ;;
      match p s with
      | Some z => ret z
      | None => raise ValueError
      end
  | None => raise TypeError
  end.

(** [x is True] *)
Definition is_True (v : option cfgval) : bool :=
  match v with
  | Some (CfgBool true) => true
  | _ => false
  end.

(** *** Files *)

Definition update_fs (f : gmap string bytes -> result (gmap string bytes))
    : M unit :=
  fun _ w =>
    match f (fs w) with
    | Ok fs' =>
        (Ok tt,
         {| fs := fs'; procs := procs w; vars := vars w;
            trace := trace w; calls := calls w; draws := draws w |})
    | Raise x => (Raise x, w)
    end.

Definition update_fs_random
    (f : rng -> nat -> gmap string bytes -> result (gmap string bytes * nat))
    : M unit :=
  fun e w =>
    match f (random e) (draws w) (fs w) with
    | Ok (fs', k') =>
        (Ok tt,
         {| fs := fs'; procs := procs w; vars := vars w;
            trace := trace w; calls := calls w; draws := k' |})
    | Raise x => (Raise x, w)
    end.

Definition os_path_getsize (file : string) : M Z :=
  fun _ w =>
    match fs w !! file with
    | Some content => (Ok (Z.of_nat (length content)), w)
    | None => (Raise FileNotFoundError, w)
    end.

(** [os.remove(file)] *)
Definition os_remove (file : string) : M unit :=
  log (EvRemove file) ;;
  call ;;
  update_fs (fun fs =>
    match fs !! file with
    | Some _ => Ok (delete file fs)
    | None => Raise FileNotFoundError
    end).

(** [try: os.remove(file) except OSError: pass] *)
Definition remove_quietly (file : string) : M unit :=
  try_except (os_remove file) is_OSError (ret tt).

(** *** Processes *)

Definition set_var (v : var) (h : nat) : M unit :=
  fun _ w =>
    (Ok tt,
     {| fs := fs w; procs := procs w;
        vars := fun v' => if var_eqb v v' then Some h else vars w v';
        trace := trace w; calls := calls w; draws := draws w |}).

Definition get_var (v : var) : M nat :=
  fun _ w =>
    match vars w v with
    | Some h => (Ok h, w)
    | None => (Raise UnboundLocalError, w)
    end.

Definition add_proc (p : proc) : M nat :=
  fun _ w =>
    (Ok (length (procs w)),
     {| fs := fs w; procs := procs w ++ [p]; vars := vars w;
        trace := trace w; calls := calls w; draws := draws w |}).

Definition get_proc (h : nat) : M proc :=
  fun _ w =>
    match procs w !! h with
    | Some p => (Ok p, w)
    | None => (Raise AttributeError, w)
    end.

Definition set_proc (h : nat) (p : proc) : M unit :=
  fun _ w =>
    (Ok tt,
     {| fs := fs w; procs := <[h := p]> (procs w); vars := vars w;
        trace := trace w; calls := calls w; draws := draws w |}).

(** [v = multiprocessing.Process(target=..., args=...)] *)
Definition Process_new (v : var) (srv : server) : M unit :=
  call ;;
  h <- add_proc {| target := srv; daemon := false; state := Created |} ;;
  set_var v h.

(** [v.daemon = True] *)
Definition Process_set_daemon (v : var) (d : bool) : M unit :=
  h <- get_var v ;;
  p <- get_proc h ;;
  set_proc h {| target := target p; daemon := d; state := state p |}.

(** [v.start()]: a process cannot be started twice; when the call raises,
    no child is running. *)
Definition Process_start (v : var) : M unit :=
  h <- get_var v ;;
  p <- get_proc h ;;
  match state p with
  | Created =>
      call ;;
      set_proc h {| target := target p; daemon := daemon p; state := Running |} ;;
      log (EvStart h)
  | _ => raise AssertionError
  end.

(** [v.terminate()]: a process that was never started has no child to
    signal, which is an [AttributeError]; one that already exited is left
    alone. *)
Definition Process_terminate (v : var) : M unit :=
  h <- get_var v ;;
  p <- get_proc h ;;
  match state p with
  | Created => raise AttributeError
  | Running =>
      set_proc h {| target := target p; daemon := daemon p; state := Terminated |} ;;
      log (EvTerminate h)
  | Terminated => log (EvTerminate h)
  end.

(** [chunked_server = start_chunked_server(dir, port)]: [os.chdir], then the
    [Popen] of [openssl s_server], which is running once constructed. *)
Definition Popen_chunked_server (v : var) (ota_image_dir : string)
    (server_port : Z) : M unit :=
  call ;;
  here <- ask script_dir ;;
  call ;;
  h <- add_proc {| target := start_chunked_server here ota_image_dir server_port;
                   daemon := false; state := Running |} ;;
  log (EvStart h) ;;
  set_var v h.

(** [v.kill()] *)
Definition Popen_kill (v : var) : M unit :=
  h <- get_var v ;;
  p <- get_proc h ;;
  match state p with
  | Running =>
      set_proc h {| target := target p; daemon := daemon p; state := Terminated |} ;;
      log (EvKill h)
  | _ => log (EvKill h)
  end.

(** [random.randint(a, b)] on the next draw. *)
Definition random_randint (a b : Z) : M Z :=
  fun e w =>
    (randint (random e) (draws w) a b,
     {| fs := fs w; procs := procs w; vars := vars w;
        trace := trace w; calls := calls w; draws := S (draws w) |}).

(** [restart_device_with_random_delay(dut, min_delay, max_delay)] *)
Definition restart_device_with_random_delay (min_delay max_delay : Z) : M unit :=
  delay <- random_randint min_delay max_delay ;;
  time_sleep delay ;;
  dut_serial_hard_reset.

(** *** The scenarios

    [print] calls are left out; everything else follows the test functions
    line by line. *)

Definition NVS_PARTITION := "nvs".
Definition bin_name := FaultInjector.bin_name.
Definition ipv4_pattern := "IPv4 address: (\d+\.\d+\.\d+\.\d+)[^\d]".

(** The block every scenario repeats:
    [[
    try:
        ip_address = dut.expect(r'IPv4 address: ...', timeout=30)[1].decode()
    except pexpect.exceptions.TIMEOUT:
        raise ValueError('ENV_TEST_FAILURE: Cannot connect to AP/Ethernet')
    ]] *)
Definition expect_ip_address : M string :=
  try_except (dut_expect ipv4_pattern (Some 30))
    (fun x => exn_eqb x TIMEOUT) (raise ValueError).

Definition url (host_ip : string) (port : string) (name : string) : string :=
  "https://" +:+ host_ip +:+ ":" +:+ port +:+ "/" +:+ name.

(** [thread1 = multiprocessing.Process(target=start_https_server,
    args=(dut.app.binary_path, ip, port))] *)
Definition new_https_server (v : var) (server_ip : string) (server_port : Z)
    : M unit :=
  dir <- ask binary_path ;;
  here <- ask script_dir ;;
  Process_new v (start_https_server here dir server_ip server_port).

Definition new_redirect_server (v : var) (server_ip : string)
    (server_port redirection_port : Z) : M unit :=
  dir <- ask binary_path ;;
  here <- ask script_dir ;;
  Process_new v (start_redirect_server here dir server_ip server_port redirection_port).

Definition test_examples_protocol_advanced_https_ota_example : M unit :=
  let iterations := 3%nat in
  let server_port := 8001 in
  new_https_server thread1 "0.0.0.0" server_port ;;
  Process_set_daemon thread1 true ;;
  Process_start thread1 ;;
  try_finally
    (for_range iterations
       (dut_expect "Loaded app from partition at offset" (Some 30) ;;
        ip_address <- expect_ip_address ;;
        dut_expect "Starting Advanced OTA example" (Some 30) ;;
        host_ip <- get_host_ip4_by_dest_ip ip_address ;;
        dut_write (url host_ip (str server_port) bin_name) ;;
        dut_expect "upgrade successful. Rebooting ..." (Some 150) ;;
        ret tt))
    (Process_terminate thread1).

Definition test_examples_protocol_advanced_https_ota_example_ota_resumption
    : M unit :=
  let server_port := 8001 in
  dut_serial_erase_partition NVS_PARTITION ;;
  new_https_server thread1 "0.0.0.0" server_port ;;
  Process_set_daemon thread1 true ;;
  Process_start thread1 ;;
  try_finally
    (dut_expect "Loaded app from partition at offset" (Some 30) ;;
     ip_address <- expect_ip_address ;;
     dut_expect "Starting Advanced OTA example" (Some 30) ;;
     host_ip <- get_host_ip4_by_dest_ip ip_address ;;
     dut_write (url host_ip (str server_port) bin_name) ;;
     dut_expect "Starting OTA..." (Some 60) ;;
     restart_device_with_random_delay 5 15 ;;
     Process_terminate thread1 ;;
     new_https_server thread1 "0.0.0.0" server_port ;;
     Process_set_daemon thread1 true ;;
     Process_start thread1 ;;
     dut_expect "Loaded app from partition at offset" (Some 180) ;;
     ip_address <- expect_ip_address ;;
     dut_expect "Starting Advanced OTA example" (Some 30) ;;
     host_ip <- get_host_ip4_by_dest_ip ip_address ;;
     dut_write (url host_ip (str server_port) bin_name) ;;
     dut_expect "Starting OTA..." (Some 60) ;;
     dut_expect "upgrade successful. Rebooting ..." (Some 150) ;;
     ret tt)
    (Process_terminate thread1).

Definition test_examples_protocol_advanced_https_ota_example_truncated_bin
    : M unit :=
  let server_port := 8001 in
  let truncated_bin_name := FaultInjector.truncated_bin_name in
  dir <- ask binary_path ;;
  update_fs (fun fs => FaultInjector.truncated_bin fs dir) ;;
  let binary_file := os_path_join dir truncated_bin_name in
  new_https_server thread1 "0.0.0.0" server_port ;;
  Process_set_daemon thread1 true ;;
  Process_start thread1 ;;
  try_finally
    (dut_expect "Loaded app from partition at offset" (Some 30) ;;
     ip_address <- expect_ip_address ;;
     dut_expect "Starting Advanced OTA example" (Some 30) ;;
     host_ip <- get_host_ip4_by_dest_ip ip_address ;;
     dut_write (url host_ip (str server_port) truncated_bin_name) ;;
     dut_expect "Image validation failed, image is corrupted" (Some 30) ;;
     remove_quietly binary_file)
    (Process_terminate thread1).

Definition test_examples_protocol_advanced_https_ota_example_truncated_header
    : M unit :=
  let server_port := 8001 in
  let truncated_bin_name := FaultInjector.truncated_header_bin_name in
  dir <- ask binary_path ;;
  update_fs (fun fs => FaultInjector.truncated_header fs dir) ;;
  let binary_file := os_path_join dir truncated_bin_name in
  new_https_server thread1 "0.0.0.0" server_port ;;
  Process_set_daemon thread1 true ;;
  Process_start thread1 ;;
  try_finally
    (dut_expect "Loaded app from partition at offset" (Some 30) ;;
     ip_address <- expect_ip_address ;;
     host_ip <- get_host_ip4_by_dest_ip ip_address ;;
     dut_expect "Starting Advanced OTA example" (Some 30) ;;
     dut_write (url host_ip (str server_port) truncated_bin_name) ;;
     dut_expect "advanced_https_ota_example: esp_https_ota_get_img_desc failed" (Some 30) ;;
     remove_quietly binary_file)
    (Process_terminate thread1).

Definition test_examples_protocol_advanced_https_ota_example_random : M unit :=
  let server_port := 8001 in
  let random_bin_name := FaultInjector.random_bin_name in
  dir <- ask binary_path ;;
  let binary_file := os_path_join dir random_bin_name in
  update_fs_random (fun g k fs => FaultInjector.random_bin g k fs dir) ;;
  new_https_server thread1 "0.0.0.0" server_port ;;
  Process_set_daemon thread1 true ;;
  Process_start thread1 ;;
  try_finally
    (dut_expect "Loaded app from partition at offset" (Some 30) ;;
     ip_address <- expect_ip_address ;;
     host_ip <- get_host_ip4_by_dest_ip ip_address ;;
     dut_expect "Starting Advanced OTA example" (Some 30) ;;
     dut_write (url host_ip (str server_port) random_bin_name) ;;
     dut_expect "esp_https_ota: Incorrect app descriptor magic" (Some 10) ;;
     remove_quietly binary_file)
    (Process_terminate thread1).

Definition test_examples_protocol_advanced_https_ota_example_invalid_chip_id
    : M unit :=
  let server_port := 8001 in
  let random_bin_name := FaultInjector.random_bin_name in
  dir <- ask binary_path ;;
  let random_binary_file := os_path_join dir random_bin_name in
  update_fs (fun fs => FaultInjector.invalid_chip_id_bin fs dir) ;;
  new_https_server thread1 "0.0.0.0" server_port ;;
  Process_set_daemon thread1 true ;;
  Process_start thread1 ;;
  try_finally
    (dut_expect "Loaded app from partition at offset" (Some 30) ;;
     ip_address <- expect_ip_address ;;
     host_ip <- get_host_ip4_by_dest_ip ip_address ;;
     dut_expect "Starting Advanced OTA example" (Some 30) ;;
     dut_write (url host_ip (str server_port) random_bin_name) ;;
     dut_expect "esp_https_ota: Mismatch chip id, expected 0, found \d" (Some 10) ;;
     remove_quietly random_binary_file)
    (Process_terminate thread1).

Definition test_examples_protocol_advanced_https_ota_example_chunked : M unit :=
  dir <- ask binary_path ;;
  Popen_chunked_server chunked_server dir 8070 ;;
  try_finally
    (dut_expect "Loaded app from partition at offset" (Some 30) ;;
     ip_address <- expect_ip_address ;;
     host_ip <- get_host_ip4_by_dest_ip ip_address ;;
     dut_expect "Starting Advanced OTA example" (Some 30) ;;
     dut_write (url host_ip "8070" bin_name) ;;
     dut_expect "upgrade successful. Rebooting ..." (Some 150) ;;
     dut_expect "Loaded app from partition at offset" (Some 30) ;;
     dut_expect "OTA example app_main start" (Some 10) ;;
     ret tt)
    (Popen_kill chunked_server).

Definition test_examples_protocol_advanced_https_ota_example_redirect_url
    : M unit :=
  let server_port := 8001 in
  let redirection_server_port := 8081 in
  let redirection_server_port1 := 8082 in
  dut_expect "Loaded app from partition at offset" (Some 30) ;;
  ip_address <- expect_ip_address ;;
  dut_expect "Starting Advanced OTA example" (Some 30) ;;
  host_ip <- get_host_ip4_by_dest_ip ip_address ;;
  new_https_server thread1 host_ip server_port ;;
  Process_set_daemon thread1 true ;;
  new_redirect_server thread2 host_ip redirection_server_port redirection_server_port1 ;;
  Process_set_daemon thread2 true ;;
  new_redirect_server thread3 host_ip redirection_server_port1 server_port ;;
  Process_set_daemon thread3 true ;;
  Process_start thread1 ;;
  Process_start thread2 ;;
  Process_start thread3 ;;
  time_sleep 1 ;;
  try_finally
    (dut_write (url host_ip (str redirection_server_port) bin_name) ;;
     dut_expect "upgrade successful. Rebooting ..." (Some 150) ;;
     dut_expect "Loaded app from partition at offset" (Some 30) ;;
     dut_expect "OTA example app_main start" (Some 10) ;;
     ret tt)
    (Process_terminate thread1 ;;
     Process_terminate thread2 ;;
     Process_terminate thread3).

Definition security_version_marker :=
  "New firmware security version is less than eFuse programmed, 0 < 1".

Definition test_examples_protocol_advanced_https_ota_example_anti_rollback
    : M unit :=
  dut_serial_erase_flash ;;
  dut_serial_flash ;;
  let server_port := 8001 in
  let anti_rollback_bin_name := FaultInjector.anti_rollback_bin_name in
  dir <- ask binary_path ;;
  update_fs (fun fs => FaultInjector.anti_rollback_bin fs dir) ;;
  let binary_file := os_path_join dir anti_rollback_bin_name in
  new_https_server thread1 "0.0.0.0" server_port ;;
  Process_set_daemon thread1 true ;;
  Process_start thread1 ;;
  try_finally
    (dut_expect "Loaded app from partition at offset" (Some 30) ;;
     ip_address <- expect_ip_address ;;
     host_ip <- get_host_ip4_by_dest_ip ip_address ;;
     dut_expect "Starting Advanced OTA example" (Some 30) ;;
     dut_write (url host_ip (str server_port) bin_name) ;;
     dut_expect "Loaded app from partition at offset" (Some 60) ;;
     dut_expect ipv4_pattern (Some 30) ;;
     dut_expect "App is valid, rollback cancelled successfully" (Some 30) ;;
     dut_expect "Starting Advanced OTA example" (Some 30) ;;
     dut_write (url host_ip (str server_port) anti_rollback_bin_name) ;;
     dut_expect security_version_marker (Some 30) ;;
     remove_quietly binary_file)
    (Process_terminate thread1).

(** [int((bin_size / request_size) - 1)]: true division, then truncation
    toward zero. *)
Definition http_requests_of (bin_size request_size : Z) : M Z :=
  if request_size =? 0 then raise ZeroDivisionError
  else ret (Z.quot (bin_size - request_size) request_size).

(** [assert cond] *)
Definition assert (cond : bool) : M unit :=
  if cond then ret tt else raise AssertionError.

Definition test_examples_protocol_advanced_https_ota_example_partial_request
    : M unit :=
  let server_port := 8001 in
  cfg <- ask sdkconfig ;;
  request_size <- int_of_cfg (cfg "EXAMPLE_HTTP_REQUEST_SIZE") ;;
  dir <- ask binary_path ;;
  let binary_file := os_path_join dir bin_name in
  bin_size <- os_path_getsize binary_file ;;
  http_requests <- http_requests_of bin_size request_size ;;
  assert (1 <? http_requests) ;;
  new_https_server thread1 "0.0.0.0" server_port ;;
  Process_set_daemon thread1 true ;;
  Process_start thread1 ;;
  try_finally
    (dut_expect "Loaded app from partition at offset" (Some 30) ;;
     ip_address <- expect_ip_address ;;
     host_ip <- get_host_ip4_by_dest_ip ip_address ;;
     dut_expect "Starting Advanced OTA example" (Some 30) ;;
     dut_write (url host_ip (str server_port) bin_name) ;;
     for_range (Z.to_nat http_requests)
       (dut_expect "Connection closed" (Some 60) ;; ret tt) ;;
     dut_expect "upgrade successful. Rebooting ..." (Some 60) ;;
     dut_expect "Loaded app from partition at offset" (Some 30) ;;
     dut_expect "OTA example app_main start" (Some 20) ;;
     ret tt)
    (Process_terminate thread1).

Definition test_examples_protocol_advanced_https_ota_example_ota_resumption_partial_download_request
    : M unit :=
  let server_port := 8001 in
  cfg <- ask sdkconfig ;;
  request_size <- int_of_cfg (cfg "EXAMPLE_HTTP_REQUEST_SIZE") ;;
  dir <- ask binary_path ;;
  let binary_file := os_path_join dir bin_name in
  bin_size <- os_path_getsize binary_file ;;
  http_requests <- http_requests_of bin_size request_size ;;
  assert (1 <? http_requests) ;;
  dut_serial_erase_partition NVS_PARTITION ;;
  new_https_server thread1 "0.0.0.0" server_port ;;
  Process_set_daemon thread1 true ;;
  Process_start thread1 ;;
  try_finally
    (dut_expect "Loaded app from partition at offset" (Some 30) ;;
     ip_address <- expect_ip_address ;;
     host_ip <- get_host_ip4_by_dest_ip ip_address ;;
     dut_expect "Starting Advanced OTA example" (Some 30) ;;
     dut_write (url host_ip (str server_port) bin_name) ;;
     restart_device_with_random_delay 5 15 ;;
     Process_terminate thread1 ;;
     new_https_server thread1 "0.0.0.0" server_port ;;
     Process_set_daemon thread1 true ;;
     Process_start thread1 ;;
     dut_expect "Loaded app from partition at offset" (Some 180) ;;
     ip_address <- expect_ip_address ;;
     dut_expect "Starting Advanced OTA example" (Some 30) ;;
     host_ip <- get_host_ip4_by_dest_ip ip_address ;;
     dut_write (url host_ip (str server_port) bin_name) ;;
     dut_expect "Starting OTA..." (Some 60) ;;
     dut_expect "upgrade successful. Rebooting ..." (Some 150) ;;
     ret tt)
    (Process_terminate thread1).

(** The block of the two BLE scenarios that sends the access-point
    credentials when the build asks for them on the console. *)
Definition send_credentials_if_asked : M unit :=
  cfg <- ask sdkconfig ;;
  if is_True (cfg "EXAMPLE_WIFI_SSID_PWD_FROM_STDIN") then
    let env_name := "wifi_high_traffic" in
    dut_expect "Please input ssid password:" None ;;
    ap_ssid <- get_env_config_variable env_name "ap_ssid" ;;
    ap_password <- get_env_config_variable env_name "ap_password" ;;
    dut_write (ap_ssid +:+ " " +:+ ap_password)
  else ret tt.

Definition test_examples_protocol_advanced_https_ota_example_nimble_gatts
    : M unit :=
  let server_port := 8001 in
  new_https_server thread1 "0.0.0.0" server_port ;;
  Process_set_daemon thread1 true ;;
  Process_start thread1 ;;
  try_finally
    (dut_expect "Loaded app from partition at offset" (Some 30) ;;
     send_credentials_if_asked ;;
     ip_address <- expect_ip_address ;;
     host_ip <- get_host_ip4_by_dest_ip ip_address ;;
     dut_expect "Starting Advanced OTA example" (Some 30) ;;
     dut_write (url host_ip (str server_port) bin_name) ;;
     dut_expect "upgrade successful. Rebooting ..." (Some 150) ;;
     dut_expect "Loaded app from partition at offset" (Some 30) ;;
     dut_expect "OTA example app_main start" (Some 10) ;;
     ret tt)
    (Process_terminate thread1).

Definition test_examples_protocol_advanced_https_ota_example_bluedroid_gatts
    : M unit :=
  let server_port := 8001 in
  new_https_server thread1 "0.0.0.0" server_port ;;
  Process_set_daemon thread1 true ;;
  Process_start thread1 ;;
  try_finally
    (dut_expect "Loaded app from partition at offset" (Some 30) ;;
     send_credentials_if_asked ;;
     ip_address <- expect_ip_address ;;
     host_ip <- get_host_ip4_by_dest_ip ip_address ;;
     dut_expect "Started advertising." (Some 30) ;;
     time_sleep 1 ;;
     dut_write (url host_ip (str server_port) bin_name) ;;
     dut_expect "upgrade successful. Rebooting ..." (Some 150) ;;
     dut_expect "Loaded app from partition at offset" (Some 30) ;;
     dut_expect "OTA example app_main start" (Some 10) ;;
     ret tt)
    (Process_terminate thread1).

Definition test_examples_protocol_advanced_https_ota_example_openssl_aligned_bin
    : M unit :=
  let aligned_bin_name := FaultInjector.aligned_bin_name in
  dir <- ask binary_path ;;
  update_fs_random (fun g k fs => FaultInjector.aligned_bin g k fs dir) ;;
  Popen_chunked_server chunked_server dir 8070 ;;
  try_finally
    (dut_expect "Loaded app from partition at offset" (Some 30) ;;
     ip_address <- expect_ip_address ;;
     host_ip <- get_host_ip4_by_dest_ip ip_address ;;
     dut_expect "Starting Advanced OTA example" (Some 30) ;;
     dut_write (url host_ip "8070" aligned_bin_name) ;;
     dut_expect "upgrade successful. Rebooting ..." (Some 150) ;;
     dut_expect "Loaded app from partition at offset" (Some 30) ;;
     dut_expect "OTA example app_main start" (Some 10) ;;
     remove_quietly aligned_bin_name)
    (Popen_kill chunked_server).

(** The part the two chip-revision scenarios share after they have edited
    the header. *)
Definition chip_revision_scenario (min_rev max_rev : option Z)
    (increment_min : bool) : M unit :=
  dir <- ask binary_path ;;
  let app_path := os_path_join dir "advanced_https_ota.bin" in
  update_fs (fun fs =>
    FaultInjector.modify_chip_revision fs app_path min_rev max_rev increment_min) ;;
  let server_port := 8001 in
  new_https_server thread1 "0.0.0.0" server_port ;;
  Process_set_daemon thread1 true ;;
  Process_start thread1 ;;
  try_finally
    (dut_expect "Loaded app from partition at offset" (Some 30) ;;
     ip_address <- expect_ip_address ;;
     dut_expect "Starting Advanced OTA example" (Some 30) ;;
     host_ip <- get_host_ip4_by_dest_ip ip_address ;;
     dut_write (url host_ip (str server_port) bin_name) ;;
     dut_expect "Starting OTA..." (Some 60) ;;
     dut_expect "chip revision check failed." (Some 150) ;;
     ret tt)
    (Process_terminate thread1).

Definition test_examples_protocol_advanced_https_ota_example_verify_min_chip_revision
    : M unit :=
  chip_revision_scenario None None true.

Definition test_examples_protocol_advanced_https_ota_example_verify_max_chip_revision
    : M unit :=
  chip_revision_scenario (Some 0) (Some 2) false.

(** The scenarios that open their guarded region right after the one
    service is started, and the one that does not. *)
Definition single_service_scenarios : list (M unit) :=
  [ test_examples_protocol_advanced_https_ota_example;
    test_examples_protocol_advanced_https_ota_example_ota_resumption;
    test_examples_protocol_advanced_https_ota_example_truncated_bin;
    test_examples_protocol_advanced_https_ota_example_truncated_header;
    test_examples_protocol_advanced_https_ota_example_random;
    test_examples_protocol_advanced_https_ota_example_invalid_chip_id;
    test_examples_protocol_advanced_https_ota_example_chunked;
    test_examples_protocol_advanced_https_ota_example_anti_rollback;
    test_examples_protocol_advanced_https_ota_example_partial_request;
    test_examples_protocol_advanced_https_ota_example_ota_resumption_partial_download_request;
    test_examples_protocol_advanced_https_ota_example_nimble_gatts;
    test_examples_protocol_advanced_https_ota_example_bluedroid_gatts;
    test_examples_protocol_advanced_https_ota_example_openssl_aligned_bin;
    test_examples_protocol_advanced_https_ota_example_verify_min_chip_revision;
    test_examples_protocol_advanced_https_ota_example_verify_max_chip_revision ].

Definition scenarios : list (M unit) :=
  test_examples_protocol_advanced_https_ota_example_redirect_url
    :: single_service_scenarios.

(** A world before any scenario ran, and the handles still running. *)
Definition init_world (files : gmap string bytes) : world :=
  {| fs := files; procs := []; vars := fun _ => None;
     trace := []; calls := 0; draws := 0 |}.

Definition is_running (p : proc) : bool :=
  match state p with
  | Running => true
  | _ => false
  end.

Fixpoint running_from (h : nat) (ps : list proc) : list nat :=
  match ps with
  | [] => []
  | p :: ps' =>
      if is_running p then h :: running_from (S h) ps' else running_from (S h) ps'
  end.

Definition running (w : world) : list nat := running_from 0 (procs w).

End Runner.

(** ** Definitions used to state the properties *)

(** The edit [modify_chip_revision] makes to the header, on a whole
    buffer: first the minimum revision, then the maximum revision. *)
Definition edit_min (c : bytes) (min_rev : option Z) (increment_min : bool)
    : result bytes :=
  if increment_min then
    (v <- getitem c FaultInjector.TARGET_OFFSET_MIN_REV ;;
     setitem c FaultInjector.TARGET_OFFSET_MIN_REV (Z.land (v + 1) 255))%result
  else
    match min_rev with
    | Some m => setitem c FaultInjector.TARGET_OFFSET_MIN_REV (Z.land m 255)
    | None => Ok c
    end.

Definition edit_max (c : bytes) (max_rev : option Z) : result bytes :=
  match max_rev with
  | Some m => setitem c FaultInjector.TARGET_OFFSET_MAX_REV (Z.land m 255)
  | None => Ok c
  end.

(** The value the minimum-revision byte ends with when it starts as [v]. *)
Definition new_min_rev (v : Z) (min_rev : option Z) (increment_min : bool) : Z :=
  if increment_min then (v + 1) mod 256
  else match min_rev with
       | Some m => m mod 256
       | None => v
       end.

(** Sample inputs: a 64-byte image with the magic byte 0xE9, chip id 0,
    minimum revision 255, maximum revision 9 and security version 1; a
    264-byte image that starts with it; a build directory that holds one
    or the other. *)
Definition sample_image : bytes :=
  <[36%nat := 1]> (<[17%nat := 9]> (<[15%nat := 255]> (<[13%nat := 0]> (233 :: replicate 63 7)))).

Definition long_image : bytes := sample_image ++ replicate 200 5.

Definition sample_path : string := "build/advanced_https_ota.bin".

Definition sample_fs : gmap string bytes := {[ sample_path := sample_image ]}.

Definition long_fs : gmap string bytes := {[ sample_path := long_image ]}.

(** The mutation descriptors of the fault injector, the file each one
    produces, the header offsets it touches and the length of what it
    produces from a source of [n] bytes. *)
Inductive mutation : Type :=
  | RevisionEdit (min_rev max_rev : option Z) (increment_min : bool)
  | TruncateBody
  | TruncateHeader
  | RandomCorruption (g : rng) (k : nat)
  | ChipIdOverwrite
  | SecurityVersionOverwrite.

Definition mutate (m : mutation) (fs : gmap string bytes) (dir : string)
    : result (gmap string bytes) :=
  match m with
  | RevisionEdit min_rev max_rev inc =>
      FaultInjector.modify_chip_revision fs
        (os_path_join dir FaultInjector.bin_name) min_rev max_rev inc
  | TruncateBody => FaultInjector.truncated_bin fs dir
  | TruncateHeader => FaultInjector.truncated_header fs dir
  | RandomCorruption g k =>
      (r <- FaultInjector.random_bin g k fs dir ;; Ok (fst r))%result
  | ChipIdOverwrite => FaultInjector.invalid_chip_id_bin fs dir
  | SecurityVersionOverwrite => FaultInjector.anti_rollback_bin fs dir
  end.

Definition artifact (m : mutation) (dir : string) : string :=
  os_path_join dir
    match m with
    | RevisionEdit _ _ _ => FaultInjector.bin_name
    | TruncateBody => FaultInjector.truncated_bin_name
    | TruncateHeader => FaultInjector.truncated_header_bin_name
    | RandomCorruption _ _ => FaultInjector.random_bin_name
    | ChipIdOverwrite => FaultInjector.random_bin_name
    | SecurityVersionOverwrite => FaultInjector.anti_rollback_bin_name
    end.

Definition touched (m : mutation) : list nat :=
  match m with
  | RevisionEdit _ _ _ =>
      [FaultInjector.TARGET_OFFSET_MIN_REV; FaultInjector.TARGET_OFFSET_MAX_REV]
  | TruncateBody | TruncateHeader => []
  | RandomCorruption _ _ => []
  | ChipIdOverwrite => [FaultInjector.CHIP_ID_OFFSET]
  | SecurityVersionOverwrite => [FaultInjector.SECURE_VERSION_OFFSET]
  end.

Definition reads_source (m : mutation) : bool :=
  match m with
  | RandomCorruption _ _ => false
  | _ => true
  end.

Definition produced_length (m : mutation) (n : nat) : nat :=
  match m with
  | RevisionEdit _ _ _ | SecurityVersionOverwrite => n
  | TruncateBody => Z.to_nat FaultInjector.truncated_bin_size `min` n
  | TruncateHeader => Z.to_nat FaultInjector.truncated_header_bin_size `min` n
  | ChipIdOverwrite => Z.to_nat FaultInjector.invalid_chip_id_size `min` n
  | RandomCorruption _ _ => Z.to_nat FaultInjector.random_bin_size
  end.

(** The frame property as the specification words it: same length, and
    the same bytes outside the touched offsets. *)
Definition same_length_and_frame (m : mutation) : Prop :=
  forall (fs fs' : gmap string bytes) (dir : string) (src out : bytes),
    fs !! os_path_join dir FaultInjector.bin_name = Some src ->
    mutate m fs dir = Ok fs' ->
    fs' !! artifact m dir = Some out ->
    length out = length src
    /\ forall i : nat, i ∉ touched m -> out !! i = src !! i.

(** The redirect service as the specification words it, in two parts: the
    endpoint is plaintext, and whatever the request, the answer is the
    redirect. *)
Definition redirect_is_plaintext : Prop :=
  forall (here dir ip : string) (port rport : Z),
    Services.tls (Services.start_redirect_server here dir ip port rport) = None.

Definition redirect_answers_any_request : Prop :=
  forall (here dir ip : string) (port rport : Z) (sv date : string)
         (get : Services.exchange -> Services.exchange) (x : Services.exchange),
    Services.server_do_GET sv date
      (Services.start_redirect_server here dir ip port rport) = Some get ->
    In (Services.StatusLine 301) (Services.wfile (get x)).

(** An exchange that starts on a request, with nothing buffered or written. *)
Definition fresh_exchange (r : Services.request) : Services.exchange :=
  {| Services.req := r; Services.headers_buffer := []; Services.wfile := [] |}.





(** The environment [e] with every call returning: the run in which the
    device shows every expected marker. *)
Definition quiet (e : Runner.env) : Runner.env :=
  {| Runner.random := Runner.random e;
     Runner.outcome := fun _ => None;
     Runner.capture := Runner.capture e;
     Runner.script_dir := Runner.script_dir e;
     Runner.binary_path := Runner.binary_path e;
     Runner.sdkconfig := Runner.sdkconfig e;
     Runner.parse_int := Runner.parse_int e;
     Runner.host_ip4_by_dest_ip := Runner.host_ip4_by_dest_ip e;
     Runner.env_config_variable := Runner.env_config_variable e |}.

(** The environment [e] in which the call number [k] raises [x]. *)
Definition failing_at (k : nat) (x : exn) (e : Runner.env) : Runner.env :=
  {| Runner.random := Runner.random e;
     Runner.outcome := fun n => if (n =? k)%nat then Some x else None;
     Runner.capture := Runner.capture e;
     Runner.script_dir := Runner.script_dir e;
     Runner.binary_path := Runner.binary_path e;
     Runner.sdkconfig := Runner.sdkconfig e;
     Runner.parse_int := Runner.parse_int e;
     Runner.host_ip4_by_dest_ip := Runner.host_ip4_by_dest_ip e;
     Runner.env_config_variable := Runner.env_config_variable e |}.

(** A sample environment: the device at 192.168.1.7, the host at
    192.168.1.2, the build under [build], raw random draws 0, 1, 2, ... *)
Definition sample_env : Runner.env :=
  {| Runner.random := fun k => Z.of_nat k;
     Runner.outcome := fun _ => None;
     Runner.capture := fun _ => "192.168.1.7";
     Runner.script_dir := "tests";
     Runner.binary_path := "build";
     Runner.sdkconfig := fun _ => None;
     Runner.parse_int := fun _ => None;
     Runner.host_ip4_by_dest_ip := fun _ => "192.168.1.2";
     Runner.env_config_variable := fun _ _ => EmptyString |}.

(** The expectations of a trace, in order. *)
Fixpoint expectations (t : list Runner.event) : list string :=
  match t with
  | [] => []
  | Runner.EvExpect pattern _ :: t' => pattern :: expectations t'
  | _ :: t' => expectations t'
  end.

(** No process of the table is running; every running process is the one
    the handle variable [v] holds. *)
Definition stopped (w : Runner.world) : Prop :=
  forall (h : nat) (p : Runner.proc),
    Runner.procs w !! h = Some p -> Runner.is_running p = false.

Definition tracked (v : Runner.var) (w : Runner.world) : Prop :=
  forall (h : nat) (p : Runner.proc),
    Runner.procs w !! h = Some p -> Runner.is_running p = true ->
    Runner.vars w v = Some h.

(** A computation that leaves the process table and the handle variables
    alone, whatever the environment does. *)
Definition frame {A} (m : Runner.M A) : Prop :=
  forall (e : Runner.env) (w : Runner.world),
    Runner.procs (snd (m e w)) = Runner.procs w
    /\ Runner.vars (snd (m e w)) = Runner.vars w.

(** From a world in [P], the computation ends in [Qn] when it returns and
    in [Qe] when it raises. *)
Definition triple {A} (P : Runner.world -> Prop) (m : Runner.M A)
    (Qn Qe : Runner.world -> Prop) : Prop :=
  forall (e : Runner.env) (w : Runner.world),
    P w ->
    match fst (m e w) with
    | Ok _ => Qn (snd (m e w))
    | Raise _ => Qe (snd (m e w))
    end.

(** A predicate that only looks at the process table and the handles. *)
Definition on_processes (P : Runner.world -> Prop) : Prop :=
  forall w w' : Runner.world,
    Runner.procs w' = Runner.procs w -> Runner.vars w' = Runner.vars w ->
    P w -> P w'.

(** Whether [modify_chip_revision] asks for an offset the file [c] does
    not hold: offset 0x0F when the minimum revision is incremented or set,
    offset 0x11 when the maximum revision is set. *)
Definition lacks_offset (c : bytes) (min_rev max_rev : option Z)
    (increment_min : bool) : bool :=
  ((increment_min || bool_decide (is_Some min_rev))
     && (length c <=? FaultInjector.TARGET_OFFSET_MIN_REV)%nat)
  || (bool_decide (is_Some max_rev)
        && (length c <=? FaultInjector.TARGET_OFFSET_MAX_REV)%nat).

(** The URL under which the service [s] serves the file [name]. *)
Definition endpoint (s : Services.server) (name : string) : string :=
  "https://" +:+ Services.host s +:+ ":" +:+ str (Services.port s) +:+ "/" +:+ name.

(** The environment [e] with its first [n] calls returning. *)
Definition quiet_until (n : nat) (e : Runner.env) : Runner.env :=
  {| Runner.random := Runner.random e;
     Runner.outcome := fun k => if (k <? n)%nat then None else Runner.outcome e k;
     Runner.capture := Runner.capture e;
     Runner.script_dir := Runner.script_dir e;
     Runner.binary_path := Runner.binary_path e;
     Runner.sdkconfig := Runner.sdkconfig e;
     Runner.parse_int := Runner.parse_int e;
     Runner.host_ip4_by_dest_ip := Runner.host_ip4_by_dest_ip e;
     Runner.env_config_variable := Runner.env_config_variable e |}.

(** The environment [e] with another build configuration. *)
Definition with_sdkconfig (cfg : string -> option Runner.cfgval) (e : Runner.env)
    : Runner.env :=
  {| Runner.random := Runner.random e;
     Runner.outcome := Runner.outcome e;
     Runner.capture := Runner.capture e;
     Runner.script_dir := Runner.script_dir e;
     Runner.binary_path := Runner.binary_path e;
     Runner.sdkconfig := cfg;
     Runner.parse_int := Runner.parse_int e;
     Runner.host_ip4_by_dest_ip := Runner.host_ip4_by_dest_ip e;
     Runner.env_config_variable := Runner.env_config_variable e |}.

(** A 20-byte file: long enough for the minimum-revision offset and the
    chip id, too short for the security version. *)
Definition short_image : bytes := replicate 20 3.

Definition short_fs : gmap string bytes := {[ sample_path := short_image ]}.

(** A trace before and after the hard reset of the device. *)
Fixpoint before_reset (t : list Runner.event) : list Runner.event :=
  match t with
  | [] => []
  | Runner.EvHardReset :: _ => []
  | ev :: t' => ev :: before_reset t'
  end.

Fixpoint after_reset (t : list Runner.event) : list Runner.event :=
  match t with
  | [] => []
  | Runner.EvHardReset :: t' => t'
  | _ :: t' => after_reset t'
  end.

(** The resumption scenario as the specification words it: after the
    restart the harness expects, besides the final success marker, some
    marker that a transfer started from scratch (the one before the
    interruption) is not expected to show, so that a resumed transfer is
    told from a restarted one. *)
Definition resumption_is_distinguished : Prop :=
  forall (e : Runner.env) (files : gmap string bytes),
    let t := Runner.trace
               (snd (Runner.test_examples_protocol_advanced_https_ota_example_ota_resumption
                       (quiet e) (Runner.init_world files))) in
    exists marker : string,
      In marker (expectations (after_reset t))
      /\ ~ In marker (expectations (before_reset t))
      /\ marker <> "upgrade successful. Rebooting ...".

(** The exception a caller sees for [x] raised inside the [try] of
    [modify_chip_revision]. *)
Definition reraised (x : exn) : exn :=
  if is_OSError x then RuntimeError else x.

(** * Properties *)

(** ** Byte buffers and paths *)

Section Buffers.
Implicit Types (c h data : bytes) (i n pos : nat).

Lemma write_at_start h c : write_at 0 h c = h ++ drop (length h) c.
Proof. unfold write_at. rewrite take_0. reflexivity. Qed.

Lemma write_at_empty data : write_at 0 data [] = data.
Proof. rewrite write_at_start, drop_nil. apply app_nil_r. Qed.

Lemma take_drop_min n c : take n c ++ drop (n `min` length c) c = c.
Proof.
  destruct (Nat.le_gt_cases n (length c)) as [Hle | Hgt].
  - rewrite Nat.min_l by exact Hle. apply take_drop.
  - rewrite Nat.min_r by lia. rewrite take_ge by lia.
    rewrite drop_all. apply app_nil_r.
Qed.

Lemma read_nonneg n c : read (Z.of_nat n) c = take n c.
Proof.
  unfold read. destruct (Z.ltb_spec (Z.of_nat n) 0) as [Hneg | _]; [lia |].
  rewrite Nat2Z.id. reflexivity.
Qed.

Lemma read_all c : read (Z.of_nat (length c)) c = c.
Proof. rewrite read_nonneg. apply take_ge. lia. Qed.

(** Writing an edited header back over the file is the same edit on the
    whole file. *)
Lemma header_back_1 n i x c :
  (i < n `min` length c)%nat ->
  write_at 0 (<[i:=x]> (take n c)) c = <[i:=x]> c.
Proof.
  intros Hi. rewrite write_at_start, length_insert, length_take.
  rewrite <- insert_app_l by (rewrite length_take; exact Hi).
  rewrite take_drop_min. reflexivity.
Qed.

Lemma header_back_2 n i j x y c :
  (i < n `min` length c)%nat -> (j < n `min` length c)%nat ->
  write_at 0 (<[j:=y]> (<[i:=x]> (take n c))) c = <[j:=y]> (<[i:=x]> c).
Proof.
  intros Hi Hj. rewrite write_at_start, !length_insert, length_take.
  rewrite <- insert_app_l by (rewrite length_insert, length_take; exact Hj).
  rewrite <- insert_app_l by (rewrite length_take; exact Hi).
  rewrite take_drop_min. reflexivity.
Qed.

Lemma header_back_0 n c : write_at 0 (take n c) c = c.
Proof. rewrite write_at_start, length_take. apply take_drop_min. Qed.

Lemma land_255 z : Z.land z 255 = z mod 256.
Proof. change 255 with (Z.ones 8). rewrite Z.land_ones by lia. reflexivity. Qed.

Lemma setitem_ok c i v : (i < length c)%nat -> setitem c i v = Ok (<[i:=v]> c).
Proof.
  intros Hi. unfold setitem.
  destruct (Nat.ltb_spec i (length c)); [reflexivity | lia].
Qed.

Lemma setitem_raise c i v : (length c <= i)%nat -> setitem c i v = Raise IndexError.
Proof.
  intros Hi. unfold setitem.
  destruct (Nat.ltb_spec i (length c)); [lia | reflexivity].
Qed.

Lemma getitem_take n i c : (i < n)%nat -> getitem (take n c) i = getitem c i.
Proof. intros Hi. unfold getitem. rewrite lookup_take_lt by exact Hi. reflexivity. Qed.
End Buffers.

Section Paths.
Lemma os_path_join_inj dir a b :
  startswith_slash a = false -> startswith_slash b = false ->
  os_path_join dir a = os_path_join dir b -> a = b.
Proof.
  unfold os_path_join. intros -> ->.
  destruct (String.eqb dir EmptyString || endswith_slash dir); intros Heq.
  - exact (String.app_inj dir _ _ Heq).
  - apply (String.app_inj dir) in Heq. apply (String.app_inj "/") in Heq. exact Heq.
Qed.

Lemma os_path_join_ne dir a b :
  startswith_slash a = false -> startswith_slash b = false ->
  a <> b -> os_path_join dir a <> os_path_join dir b.
Proof. intros Ha Hb Hne Heq. apply Hne. eapply os_path_join_inj; eassumption. Qed.
End Paths.

(** ** Fault injector: the revision header *)

Section RevisionHeader.
Import FaultInjector.
Implicit Types (fs : gmap string bytes) (c : bytes).

Lemma edit_min_length c min_rev inc c' :
  edit_min c min_rev inc = Ok c' -> length c' = length c.
Proof.
  unfold edit_min, getitem, setitem.
  destruct inc; [destruct (c !! TARGET_OFFSET_MIN_REV); simpl | destruct min_rev];
    try discriminate;
    try (destruct (Nat.ltb_spec TARGET_OFFSET_MIN_REV (length c)); [| discriminate]);
    intros [= <-]; rewrite ?length_insert; reflexivity.
Qed.

Lemma edit_max_length c max_rev c' :
  edit_max c max_rev = Ok c' -> length c' = length c.
Proof.
  unfold edit_max, setitem. destruct max_rev;
    try (destruct (Nat.ltb_spec TARGET_OFFSET_MAX_REV (length c)); [| discriminate]);
    intros [= <-]; rewrite ?length_insert; reflexivity.
Qed.

(** Reading 512 bytes, editing them and writing them back at the start
    is the edit done in place: the function is [edit_min] then [edit_max]
    on the file's content. *)
Lemma modify_chip_revision_in_place fs app_path c min_rev max_rev inc :
  fs !! app_path = Some c ->
  modify_chip_revision fs app_path min_rev max_rev inc =
    (c1 <- edit_min c min_rev inc ;;
     c2 <- edit_max c1 max_rev ;;
     Ok (<[app_path := c2]> fs))%result.
Proof.
  intros Hc. unfold modify_chip_revision. rewrite Hc, read_nonneg.
  assert (Hlen : length (take HEADER_SIZE c) = (HEADER_SIZE `min` length c)%nat)
    by apply length_take.
  assert (H15 : (TARGET_OFFSET_MIN_REV < HEADER_SIZE)%nat)
    by (unfold TARGET_OFFSET_MIN_REV, HEADER_SIZE; lia).
  assert (H17 : (TARGET_OFFSET_MAX_REV < HEADER_SIZE)%nat)
    by (unfold TARGET_OFFSET_MAX_REV, HEADER_SIZE; lia).
  unfold edit_min, edit_max.
  rewrite getitem_take by exact H15.
  destruct (Nat.le_gt_cases (length c) TARGET_OFFSET_MIN_REV) as [Hs15 | Hl15].
  - (* no byte at the minimum-revision offset *)
    assert (Hg : getitem c TARGET_OFFSET_MIN_REV = Raise IndexError).
    { unfold getitem. rewrite lookup_ge_None_2 by exact Hs15. reflexivity. }
    assert (Hs17 : (length c <= TARGET_OFFSET_MAX_REV)%nat)
      by (unfold TARGET_OFFSET_MIN_REV, TARGET_OFFSET_MAX_REV in *; lia).
    destruct inc; [rewrite Hg; reflexivity |].
    destruct min_rev as [m |]; simpl.
    + rewrite !setitem_raise by lia. reflexivity.
    + destruct max_rev as [m |]; simpl.
      * rewrite !setitem_raise by lia. reflexivity.
      * rewrite header_back_0. reflexivity.
  - assert (Hmin : forall x,
               setitem (take HEADER_SIZE c) TARGET_OFFSET_MIN_REV x
               = Ok (<[TARGET_OFFSET_MIN_REV := x]> (take HEADER_SIZE c)))
      by (intros x; apply setitem_ok; lia).
    assert (Hmin' : forall x,
               setitem c TARGET_OFFSET_MIN_REV x = Ok (<[TARGET_OFFSET_MIN_REV := x]> c))
      by (intros x; apply setitem_ok; lia).
    assert (Hfinish : forall (h : bytes) (c1 : bytes),
               length h = (HEADER_SIZE `min` length c)%nat ->
               length c1 = length c ->
               write_at 0 h c = c1 ->
               (forall y, write_at 0 (<[TARGET_OFFSET_MAX_REV := y]> h) c
                          = <[TARGET_OFFSET_MAX_REV := y]> c1) ->
               (header <- match max_rev with
                          | Some m => setitem h TARGET_OFFSET_MAX_REV (Z.land m 255)
                          | None => Ok h
                          end ;;
                Ok (<[app_path := write_at 0 header c]> fs))%result
               = (c2 <- match max_rev with
                        | Some m => setitem c1 TARGET_OFFSET_MAX_REV (Z.land m 255)
                        | None => Ok c1
                        end ;;
                  Ok (<[app_path := c2]> fs))%result).
    { intros h c1 Hh Hc1 Hw Hw'. destruct max_rev as [m |]; simpl.
      - destruct (Nat.le_gt_cases (length c) TARGET_OFFSET_MAX_REV) as [Hs | Hl].
        + rewrite !setitem_raise by lia. reflexivity.
        + rewrite !setitem_ok by lia. simpl. rewrite Hw'. reflexivity.
      - rewrite Hw. reflexivity. }
    destruct inc.
    + unfold getitem. destruct (c !! TARGET_OFFSET_MIN_REV) as [v |] eqn:Hv;
        [| apply lookup_ge_None_1 in Hv; lia].
      simpl. rewrite Hmin, Hmin'. simpl.
      apply Hfinish.
      * rewrite length_insert. exact Hlen.
      * apply length_insert.
      * apply header_back_1. lia.
      * intros y. destruct (Nat.le_gt_cases (length c) TARGET_OFFSET_MAX_REV).
        -- rewrite 2!(list_insert_ge _ TARGET_OFFSET_MAX_REV)
             by (rewrite ?length_insert, ?length_take; lia).
           apply header_back_1. lia.
        -- apply header_back_2; lia.
    + destruct min_rev as [m |].
      * rewrite Hmin, Hmin'. simpl. apply Hfinish.
        -- rewrite length_insert. exact Hlen.
        -- apply length_insert.
        -- apply header_back_1. lia.
        -- intros y. destruct (Nat.le_gt_cases (length c) TARGET_OFFSET_MAX_REV).
           ++ rewrite 2!(list_insert_ge _ TARGET_OFFSET_MAX_REV)
             by (rewrite ?length_insert, ?length_take; lia).
              apply header_back_1. lia.
           ++ apply header_back_2; lia.
      * simpl. apply Hfinish.
        -- exact Hlen.
        -- reflexivity.
        -- apply header_back_0.
        -- intros y. destruct (Nat.le_gt_cases (length c) TARGET_OFFSET_MAX_REV).
           ++ rewrite 2!(list_insert_ge _ TARGET_OFFSET_MAX_REV)
             by (rewrite ?length_take; lia).
              apply header_back_0.
           ++ apply header_back_1. lia.
Qed.
End RevisionHeader.

Section RevisionEdit.
Import FaultInjector.
Implicit Types (fs : gmap string bytes) (c : bytes).

Lemma edit_min_spec c min_rev inc c1 :
  edit_min c min_rev inc = Ok c1 ->
  length c1 = length c
  /\ (forall i, i <> TARGET_OFFSET_MIN_REV -> c1 !! i = c !! i)
  /\ (forall v, c !! TARGET_OFFSET_MIN_REV = Some v ->
                c1 !! TARGET_OFFSET_MIN_REV = Some (new_min_rev v min_rev inc)).
Proof.
  intros Hed. split; [eapply edit_min_length; exact Hed |].
  revert Hed. unfold edit_min, new_min_rev, getitem, setitem.
  destruct inc.
  - destruct (c !! TARGET_OFFSET_MIN_REV) as [v0 |] eqn:Hv0; simpl; [| discriminate].
    destruct (Nat.ltb_spec TARGET_OFFSET_MIN_REV (length c)) as [Hlt | Hge];
      [| discriminate].
    intros [= <-]. split.
    + intros i Hi. apply list_lookup_insert_ne. congruence.
    + intros v [= <-]. rewrite list_lookup_insert_eq by exact Hlt.
      rewrite land_255. reflexivity.
  - destruct min_rev as [m |].
    + destruct (Nat.ltb_spec TARGET_OFFSET_MIN_REV (length c)) as [Hlt | Hge];
        [| discriminate].
      intros [= <-]. split.
      * intros i Hi. apply list_lookup_insert_ne. congruence.
      * intros v _. rewrite list_lookup_insert_eq by exact Hlt.
        rewrite land_255. reflexivity.
    + intros [= <-]. split; [reflexivity | intros v Hv; exact Hv].
Qed.

Lemma edit_max_spec c max_rev c2 :
  edit_max c max_rev = Ok c2 ->
  length c2 = length c
  /\ (forall i, i <> TARGET_OFFSET_MAX_REV -> c2 !! i = c !! i).
Proof.
  intros Hed. split; [eapply edit_max_length; exact Hed |].
  revert Hed. unfold edit_max, setitem. destruct max_rev as [m |].
  - destruct (Nat.ltb_spec TARGET_OFFSET_MAX_REV (length c)); [| discriminate].
    intros [= <-] i Hi. apply list_lookup_insert_ne. congruence.
  - intros [= <-] i _. reflexivity.
Qed.

Lemma edit_min_total c v min_rev inc :
  c !! TARGET_OFFSET_MIN_REV = Some v -> exists c1, edit_min c min_rev inc = Ok c1.
Proof.
  intros Hv. assert (Hlt : (TARGET_OFFSET_MIN_REV < length c)%nat)
    by (apply lookup_lt_is_Some; eauto).
  unfold edit_min, getitem. rewrite Hv. simpl.
  destruct inc; [| destruct min_rev]; rewrite ?setitem_ok by exact Hlt; eauto.
Qed.

Lemma edit_max_total c max_rev :
  max_rev = None \/ (TARGET_OFFSET_MAX_REV < length c)%nat ->
  exists c2, edit_max c max_rev = Ok c2.
Proof.
  unfold edit_max. intros [-> | Hlt]; [eauto |].
  destruct max_rev; rewrite ?setitem_ok by exact Hlt; eauto.
Qed.

(** Whenever the edit goes through, the file keeps its length and every
    byte outside the two revision offsets. *)
Lemma modify_chip_revision_frame fs app_path c min_rev max_rev inc fs' :
  fs !! app_path = Some c ->
  modify_chip_revision fs app_path min_rev max_rev inc = Ok fs' ->
  exists c',
    fs' = <[app_path := c']> fs
    /\ length c' = length c
    /\ (forall i, i <> TARGET_OFFSET_MIN_REV -> i <> TARGET_OFFSET_MAX_REV ->
                  c' !! i = c !! i)
    /\ (forall v, c !! TARGET_OFFSET_MIN_REV = Some v ->
                  c' !! TARGET_OFFSET_MIN_REV = Some (new_min_rev v min_rev inc)).
Proof.
  intros Hc. rewrite (modify_chip_revision_in_place _ _ _ _ _ _ Hc).
  destruct (edit_min c min_rev inc) as [c1 |] eqn:H1; simpl; [| discriminate].
  destruct (edit_max c1 max_rev) as [c2 |] eqn:H2; simpl; [| discriminate].
  intros [= <-]. exists c2.
  apply edit_min_spec in H1 as (Hl1 & Hf1 & Hv1).
  apply edit_max_spec in H2 as (Hl2 & Hf2).
  split; [reflexivity |]. split; [congruence |]. split.
  - intros i Hi15 Hi17. rewrite Hf2 by exact Hi17. apply Hf1. exact Hi15.
  - intros v Hv. rewrite Hf2 by (unfold TARGET_OFFSET_MIN_REV, TARGET_OFFSET_MAX_REV; lia).
    apply Hv1. exact Hv.
Qed.

(** The edit goes through on every file that holds the offsets it needs. *)
Lemma modify_chip_revision_total fs app_path c v min_rev max_rev inc :
  fs !! app_path = Some c ->
  c !! TARGET_OFFSET_MIN_REV = Some v ->
  max_rev = None \/ (TARGET_OFFSET_MAX_REV < length c)%nat ->
  exists fs', modify_chip_revision fs app_path min_rev max_rev inc = Ok fs'.
Proof.
  intros Hc Hv Hmax. rewrite (modify_chip_revision_in_place _ _ _ _ _ _ Hc).
  destruct (edit_min_total c v min_rev inc Hv) as [c1 H1]. rewrite H1. simpl.
  destruct (edit_max_total c1 max_rev) as [c2 H2].
  { destruct Hmax as [-> | Hlt]; [left; reflexivity | right].
    erewrite edit_min_length by exact H1. exact Hlt. }
  rewrite H2. simpl. eauto.
Qed.

(** C5: incrementing the minimum-revision byte is arithmetic modulo 256:
    a file whose byte at offset 0x0F is [v] comes back from
    [modify_chip_revision(..., increment_min=True)] with [(v + 1) mod 256]
    there, and so with 0 when [v] is 255. *)
Theorem increment_min_rev_mod_256 fs app_path c v min_rev max_rev :
  fs !! app_path = Some c ->
  c !! TARGET_OFFSET_MIN_REV = Some v ->
  max_rev = None \/ (TARGET_OFFSET_MAX_REV < length c)%nat ->
  exists c',
    modify_chip_revision fs app_path min_rev max_rev true = Ok (<[app_path := c']> fs)
    /\ c' !! TARGET_OFFSET_MIN_REV = Some ((v + 1) mod 256)
    /\ (v = 255 -> c' !! TARGET_OFFSET_MIN_REV = Some 0).
Proof.
  intros Hc Hv Hmax.
  destruct (modify_chip_revision_total fs app_path c v min_rev max_rev true Hc Hv Hmax)
    as [fs' Hrun].
  destruct (modify_chip_revision_frame _ _ _ _ _ _ _ Hc Hrun) as (c' & -> & _ & _ & Hmin).
  exists c'. split; [exact Hrun |].
  specialize (Hmin v Hv). unfold new_min_rev in Hmin.
  split; [exact Hmin |]. intros ->. exact Hmin.
Qed.

(** C10: with [increment_min=True] a given [min_rev] is ignored: the call
    is the call without it, and the byte becomes [(v + 1) mod 256]; the
    byte is set to [min_rev] (modulo 256) only when [increment_min] is
    [False]. *)
Theorem increment_min_ignores_min_rev fs app_path c v m max_rev :
  fs !! app_path = Some c ->
  c !! TARGET_OFFSET_MIN_REV = Some v ->
  max_rev = None \/ (TARGET_OFFSET_MAX_REV < length c)%nat ->
  modify_chip_revision fs app_path (Some m) max_rev true
    = modify_chip_revision fs app_path None max_rev true
  /\ (exists c',
        modify_chip_revision fs app_path (Some m) max_rev true
          = Ok (<[app_path := c']> fs)
        /\ c' !! TARGET_OFFSET_MIN_REV = Some ((v + 1) mod 256))
  /\ (exists c',
        modify_chip_revision fs app_path (Some m) max_rev false
          = Ok (<[app_path := c']> fs)
        /\ c' !! TARGET_OFFSET_MIN_REV = Some (m mod 256)).
Proof.
  intros Hc Hv Hmax. split; [reflexivity |]. split.
  - destruct (modify_chip_revision_total fs app_path c v (Some m) max_rev true Hc Hv Hmax)
      as [fs' Hrun].
    destruct (modify_chip_revision_frame _ _ _ _ _ _ _ Hc Hrun)
      as (c' & -> & _ & _ & Hmin).
    exists c'. split; [exact Hrun | exact (Hmin v Hv)].
  - destruct (modify_chip_revision_total fs app_path c v (Some m) max_rev false Hc Hv Hmax)
      as [fs' Hrun].
    destruct (modify_chip_revision_frame _ _ _ _ _ _ _ Hc Hrun)
      as (c' & -> & _ & _ & Hmin).
    exists c'. split; [exact Hrun | exact (Hmin v Hv)].
Qed.
End RevisionEdit.

Section RevisionEditExamples.
Import FaultInjector.

Example sample_path_is_joined : os_path_join "build" bin_name = sample_path.
Proof. reflexivity. Qed.

Example sample_min_rev : sample_image !! TARGET_OFFSET_MIN_REV = Some 255.
Proof. reflexivity. Qed.

Lemma increment_min_rev_mod_256_witness :
  sample_fs !! sample_path = Some sample_image
  /\ sample_image !! TARGET_OFFSET_MIN_REV = Some 255
  /\ exists c',
       modify_chip_revision sample_fs sample_path None None true
         = Ok (<[sample_path := c']> sample_fs)
       /\ c' !! TARGET_OFFSET_MIN_REV = Some ((255 + 1) mod 256)
       /\ (255 = 255 -> c' !! TARGET_OFFSET_MIN_REV = Some 0).
Proof.
  split; [reflexivity |]. split; [reflexivity |].
  apply (increment_min_rev_mod_256 sample_fs sample_path sample_image 255 None None);
    [reflexivity | reflexivity | left; reflexivity].
Defined.

Lemma increment_min_ignores_min_rev_witness :
  modify_chip_revision sample_fs sample_path (Some 3) (Some 2) true
    = modify_chip_revision sample_fs sample_path None (Some 2) true
  /\ (exists c',
        modify_chip_revision sample_fs sample_path (Some 3) (Some 2) true
          = Ok (<[sample_path := c']> sample_fs)
        /\ c' !! TARGET_OFFSET_MIN_REV = Some ((255 + 1) mod 256))
  /\ (exists c',
        modify_chip_revision sample_fs sample_path (Some 3) (Some 2) false
          = Ok (<[sample_path := c']> sample_fs)
        /\ c' !! TARGET_OFFSET_MIN_REV = Some (3 mod 256)).
Proof.
  apply (increment_min_ignores_min_rev sample_fs sample_path sample_image 255 3 (Some 2));
    [reflexivity | reflexivity | right; vm_compute; lia].
Defined.
End RevisionEditExamples.

(** ** Fault injector: copies, overwrites and random content *)

Section Copies.
Import FaultInjector.
Implicit Types (fs : gmap string bytes) (c : bytes).

Lemma names_relative :
  startswith_slash bin_name = false
  /\ startswith_slash truncated_bin_name = false
  /\ startswith_slash truncated_header_bin_name = false
  /\ startswith_slash random_bin_name = false
  /\ startswith_slash anti_rollback_bin_name = false.
Proof. repeat split; reflexivity. Qed.

Lemma artifact_is_a_new_file dir name :
  startswith_slash name = false -> name <> bin_name ->
  os_path_join dir bin_name <> os_path_join dir name.
Proof.
  intros Hrel Hne. apply os_path_join_ne; [reflexivity | exact Hrel | congruence].
Qed.

Lemma copy_prefix_spec fs binary_file out size c :
  fs !! binary_file = Some c -> binary_file <> out ->
  copy_prefix fs binary_file out size = Ok (<[out := read size c]> fs).
Proof.
  intros Hc Hne. unfold copy_prefix. rewrite Hc.
  rewrite lookup_insert_ne by congruence. rewrite Hc. simpl.
  rewrite write_at_empty, insert_insert_eq. reflexivity.
Qed.

(** C6: for every length [N] up to the source's length, the truncation
    writes a new file that holds exactly the first [N] bytes of the
    source, and the source and every other file stay as they were. *)
Theorem truncation_copies_prefix fs binary_file out (N : Z) c :
  fs !! binary_file = Some c ->
  binary_file <> out ->
  0 <= N <= Z.of_nat (length c) ->
  exists fs',
    copy_prefix fs binary_file out N = Ok fs'
    /\ fs' !! out = Some (take (Z.to_nat N) c)
    /\ length (take (Z.to_nat N) c) = Z.to_nat N
    /\ (forall i : nat, (i < Z.to_nat N)%nat -> take (Z.to_nat N) c !! i = c !! i)
    /\ fs' !! binary_file = Some c
    /\ (forall p, p <> out -> fs' !! p = fs !! p).
Proof.
  intros Hc Hne HN. exists (<[out := read N c]> fs).
  split; [apply copy_prefix_spec; assumption |].
  assert (Hread : read N c = take (Z.to_nat N) c).
  { unfold read. destruct (Z.ltb_spec N 0); [lia | reflexivity]. }
  rewrite Hread. split; [apply lookup_insert_eq |].
  split; [apply length_take_le; lia |].
  split; [intros i Hi; apply lookup_take_lt; exact Hi |].
  split.
  - rewrite lookup_insert_ne by congruence. exact Hc.
  - intros p Hp. apply lookup_insert_ne. congruence.
Qed.

(** The two truncation scenarios are instances of it. *)
Lemma truncated_bin_spec fs dir c :
  fs !! os_path_join dir bin_name = Some c ->
  truncated_bin fs dir
    = Ok (<[os_path_join dir truncated_bin_name := read truncated_bin_size c]> fs).
Proof.
  intros Hc. unfold truncated_bin.
  rewrite (copy_prefix_spec _ _ _ _ c Hc).
  - reflexivity.
  - apply artifact_is_a_new_file; [reflexivity | discriminate].
Qed.

Lemma truncated_header_spec fs dir c :
  fs !! os_path_join dir bin_name = Some c ->
  truncated_header fs dir
    = Ok (<[os_path_join dir truncated_header_bin_name
            := read truncated_header_bin_size c]> fs).
Proof.
  intros Hc. unfold truncated_header.
  rewrite (copy_prefix_spec _ _ _ _ c Hc).
  - reflexivity.
  - apply artifact_is_a_new_file; [reflexivity | discriminate].
Qed.

Lemma truncation_copies_prefix_witness :
  long_fs !! os_path_join "build" bin_name = Some long_image
  /\ os_path_join "build" bin_name <> os_path_join "build" truncated_header_bin_name
  /\ 0 <= truncated_header_bin_size <= Z.of_nat (length long_image)
  /\ exists fs',
       truncated_header long_fs "build" = Ok fs'
       /\ fs' !! os_path_join "build" truncated_header_bin_name
          = Some (take 180 long_image)
       /\ length (take 180 long_image) = 180%nat
       /\ (forall i : nat, (i < 180)%nat -> take 180 long_image !! i = long_image !! i)
       /\ fs' !! os_path_join "build" bin_name = Some long_image
       /\ (forall p, p <> os_path_join "build" truncated_header_bin_name ->
                     fs' !! p = long_fs !! p).
Proof.
  split; [reflexivity |]. split; [discriminate |].
  split; [vm_compute; split; discriminate |].
  apply (truncation_copies_prefix long_fs (os_path_join "build" bin_name)
           (os_path_join "build" truncated_header_bin_name)
           truncated_header_bin_size long_image);
    [reflexivity | discriminate | vm_compute; split; discriminate].
Defined.
End Copies.

Section Overwrites.
Import FaultInjector.
Implicit Types (fs : gmap string bytes) (c : bytes).

(** One byte written at [pos]: what the file holds afterwards. *)
Lemma write_byte_at_lookup pos b c :
  write_at pos [b] c !! pos = Some b.
Proof.
  unfold write_at. rewrite app_assoc.
  rewrite lookup_app_r; rewrite length_app, length_take, length_replicate; [| lia].
  replace (pos - (pos `min` length c + (pos - length c)))%nat with 0%nat by lia.
  reflexivity.
Qed.

Lemma write_byte_at_other pos b c i :
  i <> pos -> (i < length c)%nat -> write_at pos [b] c !! i = c !! i.
Proof.
  intros Hne Hi. unfold write_at.
  destruct (Nat.lt_ge_cases i pos) as [Hlt | Hge].
  - rewrite lookup_app_l by (rewrite length_take; lia).
    apply lookup_take_lt. exact Hlt.
  - assert (Hpos : (pos < length c)%nat) by lia.
    replace (pos - length c)%nat with 0%nat by lia. simpl.
    rewrite lookup_app_r by (rewrite length_take; lia).
    rewrite length_take. replace (pos `min` length c)%nat with pos by lia.
    destruct (i - pos)%nat as [| j] eqn:Hj; [lia |]. simpl.
    rewrite lookup_drop. f_equal. lia.
Qed.

Lemma write_byte_at_length pos b c :
  length (write_at pos [b] c) = (length c `max` S pos)%nat.
Proof.
  unfold write_at.
  rewrite !length_app, length_take, length_replicate, length_drop. simpl. lia.
Qed.

Lemma write_byte_at_insert pos b c :
  (pos < length c)%nat -> write_at pos [b] c = <[pos := b]> c.
Proof.
  intros Hpos. unfold write_at.
  replace (pos - length c)%nat with 0%nat by lia. simpl.
  rewrite (insert_take_drop c pos b Hpos).
  replace (pos + 1)%nat with (S pos) by lia. reflexivity.
Qed.

Lemma anti_rollback_bin_spec fs dir c :
  fs !! os_path_join dir bin_name = Some c ->
  anti_rollback_bin fs dir
    = Ok (<[os_path_join dir anti_rollback_bin_name
            := write_at SECURE_VERSION_OFFSET [0] c]> fs).
Proof.
  intros Hc. unfold anti_rollback_bin. rewrite Hc.
  rewrite lookup_insert_ne
    by (apply not_eq_sym, artifact_is_a_new_file; [reflexivity | discriminate]).
  rewrite Hc. simpl. rewrite read_all, write_at_empty, insert_insert_eq.
  reflexivity.
Qed.

Lemma invalid_chip_id_bin_spec fs dir c :
  fs !! os_path_join dir bin_name = Some c ->
  (CHIP_ID_OFFSET < length c)%nat ->
  invalid_chip_id_bin fs dir
    = Ok (<[os_path_join dir random_bin_name
            := <[CHIP_ID_OFFSET := 254]> (read invalid_chip_id_size c)]> fs).
Proof.
  intros Hc Hlen. unfold invalid_chip_id_bin. rewrite Hc.
  rewrite setitem_ok; [reflexivity |].
  unfold read, invalid_chip_id_size. simpl. rewrite length_take.
  unfold CHIP_ID_OFFSET in *. lia.
Qed.
End Overwrites.

Section RandomContent.
Import FaultInjector.

Lemma randrange_byte g k : randrange g k 0 255 1 = Ok (g k mod 255).
Proof.
  unfold randrange, randbelow.
  change ((255 - 0 + 1 - 1) / 1) with 255.
  change (255 <=? 0) with false. cbv iota.
  rewrite Z.add_0_l, Z.mul_1_l. reflexivity.
Qed.

Lemma struct_pack_B_ok v : 0 <= v <= 255 -> struct_pack_B v = Ok [v].
Proof.
  intros Hv. unfold struct_pack_B.
  destruct (Z.leb_spec 0 v); [| lia]. destruct (Z.leb_spec v 255); [| lia].
  reflexivity.
Qed.

(** The filling loop always completes; it appends [count] bytes, the
    [i]-th of them the draw [k + i] reduced modulo 255. *)
Lemma random_fill_spec g count : forall k acc,
  exists bs,
    random_fill g k count acc = Ok (acc ++ bs, (k + count)%nat)
    /\ length bs = count
    /\ forall i, (i < count)%nat -> bs !! i = Some (g (k + i)%nat mod 255).
Proof.
  induction count as [| count IH]; intros k acc.
  - exists []. simpl. rewrite app_nil_r, Nat.add_0_r.
    split; [reflexivity |]. split; [reflexivity | intros i Hi; lia].
  - cbn [random_fill]. rewrite randrange_byte. cbn [rbind].
    rewrite struct_pack_B_ok by (pose proof (Z.mod_pos_bound (g k) 255); lia).
    cbn [rbind]. destruct (IH (S k) (acc ++ [g k mod 255])) as (bs & Hrun & Hlen & Hbs).
    exists (g k mod 255 :: bs). rewrite Hrun.
    split; [rewrite <- app_assoc; do 2 f_equal; lia |].
    split; [simpl; congruence |].
    intros [| i] Hi; simpl.
    + rewrite Nat.add_0_r. reflexivity.
    + rewrite Hbs by lia. do 3 f_equal. lia.
Qed.

Lemma random_content_spec g k size :
  exists bs,
    random_content g k size = Ok (0 :: bs, (k + Z.to_nat (size - 1))%nat)
    /\ length bs = Z.to_nat (size - 1)
    /\ forall i, (i < Z.to_nat (size - 1))%nat ->
                 bs !! i = Some (g (k + i)%nat mod 255).
Proof.
  unfold random_content. rewrite struct_pack_B_ok by lia. cbn [rbind].
  destruct (random_fill_spec g (Z.to_nat (size - 1)) k [0]) as (bs & Hrun & Hlen & Hbs).
  exists bs. rewrite Hrun. auto.
Qed.

(** C3: the random image has exactly [random_bin_size] bytes and starts
    with the byte 0, which is not the magic byte 0xE9; but every other
    byte is a draw reduced into 0..254, so the value 255 never occurs in
    the file, whatever the random source: the bytes are not drawn from
    the full byte range. Each value of 0..254 does occur for some source. *)
Theorem random_content_never_255 (g : rng) (k : nat) :
  exists bs k',
    random_content g k random_bin_size = Ok (bs, k')
    /\ Z.of_nat (length bs) = random_bin_size
    /\ bs !! 0%nat = Some 0
    /\ 0 <> 233
    /\ (forall (i : nat) b, bs !! i = Some b -> 0 <= b < 255)
    /\ (forall (i : nat), bs !! i <> Some 255).
Proof.
  destruct (random_content_spec g k random_bin_size) as (bs & Hrun & Hlen & Hbs).
  exists (0 :: bs), (k + Z.to_nat (random_bin_size - 1))%nat.
  assert (Hrange : forall (i : nat) b, (0 :: bs) !! i = Some b -> 0 <= b < 255).
  { intros [| i] b; simpl.
    - intros [= <-]. lia.
    - intros Hb. assert (Hi : (i < Z.to_nat (random_bin_size - 1))%nat).
      { rewrite <- Hlen. apply lookup_lt_is_Some. eauto. }
      rewrite (Hbs i Hi) in Hb. injection Hb as <-.
      apply Z.mod_pos_bound. lia. }
  split; [exact Hrun |].
  split; [simpl length; rewrite Hlen; unfold random_bin_size; lia |].
  split; [reflexivity |]. split; [discriminate |].
  split; [exact Hrange |].
  intros i Hi. apply Hrange in Hi. lia.
Qed.

(** Every value below 255 is produced at every later position by some
    random source. *)
Lemma random_content_reaches_254 (k i : nat) (v : Z) :
  0 <= v < 255 -> (1 <= i)%nat -> (Z.of_nat i < random_bin_size) ->
  exists (g : rng) bs k',
    random_content g k random_bin_size = Ok (bs, k') /\ bs !! i = Some v.
Proof.
  intros Hv Hi1 Hi2. exists (fun _ => v).
  destruct (random_content_spec (fun _ => v) k random_bin_size)
    as (bs & Hrun & Hlen & Hbs).
  exists (0 :: bs), (k + Z.to_nat (random_bin_size - 1))%nat.
  split; [exact Hrun |].
  destruct i as [| i]; [lia |]. simpl.
  rewrite Hbs by lia. rewrite Z.mod_small by lia. reflexivity.
Qed.
End RandomContent.

(** ** Fault injector: what every mutation leaves alone *)

Section Frame.
Import FaultInjector.
Implicit Types (fs : gmap string bytes) (src out : bytes) (m : mutation).

Example long_image_length : length long_image = 264%nat.
Proof. reflexivity. Qed.

(** C1, as worded, fails: the header truncation of a 264-byte image
    produces a 180-byte file, so the produced length is not the source's
    length. *)
Lemma truncation_changes_length : ~ same_length_and_frame TruncateHeader.
Proof.
  intros Hclaim.
  destruct (Hclaim long_fs
              (<[os_path_join "build" truncated_header_bin_name
                 := read truncated_header_bin_size long_image]> long_fs)
              "build" long_image (read truncated_header_bin_size long_image))
    as [Hlen _].
  - reflexivity.
  - apply (truncated_header_spec long_fs "build" long_image). reflexivity.
  - apply lookup_insert_eq.
  - vm_compute in Hlen. discriminate Hlen.
Qed.

Lemma read_lookup (n : Z) src (i : nat) :
  (i < length (read n src))%nat -> read n src !! i = src !! i.
Proof.
  unfold read. destruct (n <? 0); [reflexivity |].
  rewrite length_take. intros Hi. apply lookup_take_lt. lia.
Qed.

Lemma read_length (n : Z) src :
  0 <= n -> length (read n src) = (Z.to_nat n `min` length src)%nat.
Proof.
  intros Hn. unfold read. destruct (Z.ltb_spec n 0); [lia |]. apply length_take.
Qed.

(** C1, amended: every mutation that reads the source, run on a source
    that holds the header offsets, produces a file in which every byte
    outside the touched offsets is the source's byte at the same index.
    The revision edit and the security-version overwrite keep the
    source's length; the truncations and the chip-id overwrite produce
    the first 64000, 180 or 2000 bytes, or the whole source when it is
    shorter. *)
Theorem mutation_frame m fs dir src :
  reads_source m = true ->
  fs !! os_path_join dir bin_name = Some src ->
  (SECURE_VERSION_OFFSET < length src)%nat ->
  exists fs' out,
    mutate m fs dir = Ok fs'
    /\ fs' !! artifact m dir = Some out
    /\ length out = produced_length m (length src)
    /\ forall i : nat, (i < length out)%nat -> i ∉ touched m -> out !! i = src !! i.
Proof.
  intros Hreads Hsrc Hlen. unfold SECURE_VERSION_OFFSET in Hlen.
  destruct m as [min_rev max_rev inc | | | g k | |]; simpl in Hreads;
    try discriminate Hreads; clear Hreads.
  - (* revision edit, in place *)
    assert (Hv : is_Some (src !! TARGET_OFFSET_MIN_REV))
      by (apply lookup_lt_is_Some; unfold TARGET_OFFSET_MIN_REV; lia).
    destruct Hv as [v Hv].
    destruct (modify_chip_revision_total fs _ src v min_rev max_rev inc Hsrc Hv)
      as [fs' Hrun]; [right; unfold TARGET_OFFSET_MAX_REV; lia |].
    destruct (modify_chip_revision_frame _ _ _ _ _ _ _ Hsrc Hrun)
      as (c' & -> & Hl & Hframe & _).
    exists (<[os_path_join dir bin_name := c']> fs), c'.
    split; [exact Hrun |]. split; [apply lookup_insert_eq |].
    split; [exact Hl |].
    intros i _ Hi. unfold touched in Hi.
    apply not_elem_of_cons in Hi as [Hi15 Hi].
    apply not_elem_of_cons in Hi as [Hi17 _].
    apply Hframe; assumption.
  - (* truncation below the full size *)
    eexists _, _. unfold mutate, artifact, produced_length, touched.
    split; [apply truncated_bin_spec; exact Hsrc |].
    split; [apply lookup_insert_eq |].
    split; [apply read_length; unfold truncated_bin_size; lia |].
    intros i Hi _. apply read_lookup. exact Hi.
  - (* truncation below the header size *)
    eexists _, _. unfold mutate, artifact, produced_length, touched.
    split; [apply truncated_header_spec; exact Hsrc |].
    split; [apply lookup_insert_eq |].
    split; [apply read_length; unfold truncated_header_bin_size; lia |].
    intros i Hi _. apply read_lookup. exact Hi.
  - (* chip id *)
    eexists _, _. unfold mutate, artifact, produced_length, touched.
    split; [apply invalid_chip_id_bin_spec; [exact Hsrc | unfold CHIP_ID_OFFSET; lia] |].
    split; [apply lookup_insert_eq |].
    split; [rewrite length_insert; apply read_length; unfold invalid_chip_id_size; lia |].
    intros i Hi Hnot. apply not_elem_of_cons in Hnot as [Hi13 _].
    rewrite length_insert in Hi.
    rewrite list_lookup_insert_ne by congruence. apply read_lookup. exact Hi.
  - (* security version *)
    eexists _, _. unfold mutate, artifact, produced_length, touched.
    split; [apply anti_rollback_bin_spec; exact Hsrc |].
    split; [apply lookup_insert_eq |].
    split; [rewrite write_byte_at_length; unfold SECURE_VERSION_OFFSET; lia |].
    intros i Hi Hnot. apply not_elem_of_cons in Hnot as [Hi36 _].
    rewrite write_byte_at_length in Hi.
    apply write_byte_at_other; [exact Hi36 | unfold SECURE_VERSION_OFFSET in Hi; lia].
Qed.

Lemma mutation_frame_witness :
  reads_source TruncateHeader = true
  /\ long_fs !! os_path_join "build" bin_name = Some long_image
  /\ (SECURE_VERSION_OFFSET < length long_image)%nat
  /\ exists fs' out,
       mutate TruncateHeader long_fs "build" = Ok fs'
       /\ fs' !! artifact TruncateHeader "build" = Some out
       /\ length out = produced_length TruncateHeader (length long_image)
       /\ forall i : nat, (i < length out)%nat -> i ∉ touched TruncateHeader ->
                          out !! i = long_image !! i.
Proof.
  split; [reflexivity |]. split; [reflexivity |].
  split; [vm_compute; lia |].
  apply (mutation_frame TruncateHeader long_fs "build" long_image);
    [reflexivity | reflexivity | vm_compute; lia].
Defined.
End Frame.

(** ** Network services *)

Section FileServerHandler.
Import Services.





(** Other exceptions are not swallowed. *)
Example handle_passes_other_errors :
  RequestHandler_handle
    {| RangeRequestHandler_handle := Raise ValueError; wfile_closed := false;
       wfile_flush := Ok tt; wfile_close := Ok tt; rfile_close := Ok tt |}
  = Raise ValueError.
Proof. reflexivity. Qed.
End FileServerHandler.

Section RedirectServer.
Import Services.

Example str_port : str 8082 = "8082".
Proof. reflexivity. Qed.

(** C4, as worded, fails twice: the socket of the redirect service is
    wrapped with the certificate and the key, so the endpoint is not
    plaintext; and a request is not always answered with the redirect: to
    an HTTP/0.9 request ("GET /advanced_https_ota.bin", no version)
    [do_GET] writes no status line, nothing at all. *)
Lemma redirect_server_is_tls_and_skips_http_0_9 :
  ~ redirect_is_plaintext /\ ~ redirect_answers_any_request.
Proof.
  split.
  - intros Hclaim. specialize (Hclaim "tests" "build" "192.168.1.2" 8081 8082).
    discriminate Hclaim.
  - intros Hclaim.
    specialize (Hclaim "tests" "build" "192.168.1.2" 8081 8082
                  "BaseHTTP" "today" _
                  (fresh_exchange {| command := "GET";
                                     path := "/advanced_https_ota.bin";
                                     request_version := "HTTP/0.9" |})
                  eq_refl).
    vm_compute in Hclaim. exact Hclaim.
Qed.

Lemma http_0_9_is_skipped (x : exchange) (code : Z) (k v : string) :
  is_HTTP_0_9 x = true ->
  send_response_only code x = x /\ send_header k v x = x /\ end_headers x = x.
Proof.
  intros Hold. unfold send_response_only, send_header, end_headers.
  rewrite Hold. repeat split; reflexivity.
Qed.

Lemma http_lines_are_buffered (r : request) (buffer written : list output)
    (code : Z) (k v : string) :
  String.eqb (request_version r) "HTTP/0.9" = false ->
  send_response_only code {| req := r; headers_buffer := buffer; wfile := written |}
    = {| req := r; headers_buffer := buffer ++ [StatusLine code]; wfile := written |}
  /\ send_header k v {| req := r; headers_buffer := buffer; wfile := written |}
     = {| req := r; headers_buffer := buffer ++ [HeaderLine k v]; wfile := written |}
  /\ end_headers {| req := r; headers_buffer := buffer; wfile := written |}
     = {| req := r; headers_buffer := [];
          wfile := written ++ buffer ++ [EndOfHeaders] |}.
Proof.
  intros Hnew. unfold send_response_only, send_header, end_headers, is_HTTP_0_9.
  cbn [req headers_buffer wfile]. rewrite Hnew. repeat split; reflexivity.
Qed.

Lemma do_GET_writes (sv date url : string) (x : exchange) :
  do_GET (redirect_handler_factory sv date url) x
  = if is_HTTP_0_9 x then x
    else {| req := req x;
            headers_buffer := [];
            wfile := wfile x ++ headers_buffer x
                     ++ [ StatusLine 301; HeaderLine "Server" sv;
                          HeaderLine "Date" date; HeaderLine "Location" url;
                          EndOfHeaders ] |}.
Proof.
  cbn [redirect_handler_factory do_GET]. unfold send_response.
  destruct (is_HTTP_0_9 x) eqn:Hversion.
  - destruct (http_0_9_is_skipped x 301 "Server" sv Hversion) as (Hstatus & Hserver & Hend).
    destruct (http_0_9_is_skipped x 301 "Date" date Hversion) as (_ & Hdate & _).
    destruct (http_0_9_is_skipped x 301 "Location" url Hversion) as (_ & Hlocation & _).
    rewrite Hstatus, Hserver, Hdate, Hlocation, Hend. reflexivity.
  - destruct x as [r buffer written]. unfold is_HTTP_0_9 in Hversion.
    cbn [req headers_buffer wfile] in *.
    rewrite (proj1 (http_lines_are_buffered r _ written 301 "Server" sv Hversion)).
    rewrite (proj1 (proj2 (http_lines_are_buffered r _ written 301 "Server" sv Hversion))).
    rewrite (proj1 (proj2 (http_lines_are_buffered r _ written 301 "Date" date Hversion))).
    rewrite (proj1 (proj2 (http_lines_are_buffered r _ written 301 "Location" url Hversion))).
    rewrite (proj2 (proj2 (http_lines_are_buffered r _ written 301 "Location" url Hversion))).
    rewrite <- !app_assoc. reflexivity.
Qed.

(** C4, amended: the redirect service is an HTTP endpoint behind TLS. Its
    [do_GET] answers a request of HTTP/1.0 or later, whatever its path,
    by writing the status 301, the [Server] and [Date] headers and a
    [Location] header that points at the second endpoint, ending the
    headers there: no body follows, no file bytes are served. For an
    HTTP/0.9 request it writes nothing. *)
Theorem redirect_server_redirects_get
    (here dir ip : string) (port rport : Z) (sv date : string) (x : exchange) :
  let s := start_redirect_server here dir ip port rport in
  let url := "https://" +:+ ip +:+ ":" +:+ str rport +:+ "/advanced_https_ota.bin" in
  tls s = Some (server_file here, key_file here)
  /\ handler s = RedirectTo url
  /\ exists get,
       server_do_GET sv date s = Some get
       /\ get x
          = if is_HTTP_0_9 x then x
            else {| req := req x;
                    headers_buffer := [];
                    wfile := wfile x ++ headers_buffer x
                             ++ [ StatusLine 301; HeaderLine "Server" sv;
                                  HeaderLine "Date" date; HeaderLine "Location" url;
                                  EndOfHeaders ] |}.
Proof.
  intros s url. split; [reflexivity |]. split; [reflexivity |].
  eexists. split; [reflexivity |]. apply do_GET_writes.
Qed.

Example redirect_of_a_get :
  wfile (do_GET (redirect_handler_factory "BaseHTTP" "today"
                   "https://192.168.1.2:8082/advanced_https_ota.bin")
           (fresh_exchange {| command := "GET"; path := "/any/path";
                              request_version := "HTTP/1.1" |}))
  = [ StatusLine 301; HeaderLine "Server" "BaseHTTP"; HeaderLine "Date" "today";
      HeaderLine "Location" "https://192.168.1.2:8082/advanced_https_ota.bin";
      EndOfHeaders ].
Proof. reflexivity. Qed.
End RedirectServer.


(** ** Scenario runner: the runs in which every call returns *)

Section QuietRuns.
Import Runner.
Implicit Types (e : env) (w : world) (files : gmap string bytes).

Lemma bind_run {A B} (m : M A) (k : A -> M B) e w a w' :
  m e w = (Ok a, w') -> bind m k e w = k a e w'.
Proof. intros Hm. unfold bind. rewrite Hm. reflexivity. Qed.

Lemma bind_update_fs {A} f (k : unit -> M A) e w fs' :
  f (fs w) = Ok fs' ->
  bind (update_fs f) k e w
  = k tt e {| fs := fs'; procs := procs w; vars := vars w;
              trace := trace w; calls := calls w; draws := draws w |}.
Proof. intros Hf. unfold bind, update_fs. rewrite Hf. reflexivity. Qed.

Lemma try_finally_run {A} (body : M A) fin e w r w' :
  body e w = (r, w') ->
  try_finally body fin e w
  = match fin e w' with
    | (Ok _, w'') => (r, w'')
    | (Raise x, w'') => (Raise x, w'')
    end.
Proof. intros Hb. unfold try_finally. rewrite Hb. reflexivity. Qed.

(** Removing the artifact at the end of a scenario never fails it, whether
    or not the file is there. *)
Lemma remove_quietly_quiet file e w :
  remove_quietly file (quiet e) w
  = (Ok tt, {| fs := delete file (fs w); procs := procs w; vars := vars w;
               trace := trace w ++ [EvRemove file]; calls := S (calls w);
               draws := draws w |}).
Proof.
  unfold remove_quietly, try_except, os_remove, bind, log, call, update_fs, ret, quiet.
  cbn [outcome fs procs vars trace calls draws].
  destruct (fs w !! file) as [content |] eqn:Hfile.
  - reflexivity.
  - cbn [is_OSError]. rewrite delete_id by exact Hfile. reflexivity.
Qed.

(** [random.randint(5, 15)] is 5 plus a draw reduced into 0..10. *)
Lemma randint_5_15 (g : rng) (k : nat) :
  randint g k 5 15 = Ok (5 + 1 * randbelow g k 11)
  /\ 5 <= 5 + 1 * randbelow g k 11 <= 15.
Proof.
  split; [reflexivity |].
  unfold randbelow. pose proof (Z.mod_pos_bound (g k) 11). lia.
Qed.

(** What the harness expects, in the sample run of the resumption
    scenario, before and after the hard reset. *)
Lemma sample_resumption_before :
  expectations
    (before_reset
       (trace (snd (test_examples_protocol_advanced_https_ota_example_ota_resumption
                      (quiet sample_env) (init_world sample_fs)))))
  = ["Loaded app from partition at offset";
     "IPv4 address: (\d+\.\d+\.\d+\.\d+)[^\d]";
     "Starting Advanced OTA example"; "Starting OTA..."].
Proof. vm_compute. reflexivity. Qed.

Lemma sample_resumption_after :
  expectations
    (after_reset
       (trace (snd (test_examples_protocol_advanced_https_ota_example_ota_resumption
                      (quiet sample_env) (init_world sample_fs)))))
  = ["Loaded app from partition at offset";
     "IPv4 address: (\d+\.\d+\.\d+\.\d+)[^\d]";
     "Starting Advanced OTA example"; "Starting OTA...";
     "upgrade successful. Rebooting ..."].
Proof. vm_compute. reflexivity. Qed.

(** C9, as worded, fails: after the restart the harness expects the
    markers it expected before the interruption, and then the success
    marker; none of them tells a resumed transfer from one that started
    again from the first byte. *)
Lemma resumption_is_not_distinguished : ~ resumption_is_distinguished.
Proof.
  intros Hclaim.
  pose proof (Hclaim sample_env sample_fs) as Hrun. cbv zeta in Hrun.
  rewrite sample_resumption_after, sample_resumption_before in Hrun.
  destruct Hrun as (marker & Hafter & Hbefore & Hsuccess).
  cbn [In] in Hafter, Hbefore.
  destruct Hafter as [<- | [<- | [<- | [<- | [<- | []]]]]];
    first [ apply Hsuccess; reflexivity
          | apply Hbefore; tauto ].
Qed.

(** C9, amended: in the run of the resumption scenario in which every
    expectation is met, the coordinator matches "Starting OTA...", sleeps
    a delay [d] drawn by [random.randint(5, 15)], so [5 <= d <= 15],
    hard-resets the device, terminates the first service, starts a second
    one with the same target and address, and goes through the same
    expectations again, followed by "upgrade successful. Rebooting ...";
    both services are stopped at the end. What the harness expects after
    the restart is what it expected before, and then the success marker. *)
Theorem resumption_scenario_run e files :
  let r := test_examples_protocol_advanced_https_ota_example_ota_resumption
             (quiet e) (init_world files) in
  let d := 5 + 1 * randbelow (random e) 0 11 in
  let url1 := url (host_ip4_by_dest_ip e (capture e 4%nat)) "8001" bin_name in
  let url2 := url (host_ip4_by_dest_ip e (capture e 14%nat)) "8001" bin_name in
  let srv := Services.start_https_server (script_dir e) (binary_path e) "0.0.0.0" 8001 in
  randint (random e) 0 5 15 = Ok d
  /\ 5 <= d <= 15
  /\ fst r = Ok tt
  /\ trace (snd r) =
       [ EvErasePartition "nvs"; EvStart 0;
         EvExpect "Loaded app from partition at offset" (Some 30);
         EvExpect ipv4_pattern (Some 30);
         EvExpect "Starting Advanced OTA example" (Some 30);
         EvWrite url1;
         EvExpect "Starting OTA..." (Some 60);
         EvSleep d; EvHardReset; EvTerminate 0; EvStart 1;
         EvExpect "Loaded app from partition at offset" (Some 180);
         EvExpect ipv4_pattern (Some 30);
         EvExpect "Starting Advanced OTA example" (Some 30);
         EvWrite url2;
         EvExpect "Starting OTA..." (Some 60);
         EvExpect "upgrade successful. Rebooting ..." (Some 150);
         EvTerminate 1 ]
  /\ procs (snd r) =
       [ {| target := srv; daemon := true; state := Terminated |};
         {| target := srv; daemon := true; state := Terminated |} ]
  /\ running (snd r) = []
  /\ expectations (after_reset (trace (snd r)))
     = expectations (before_reset (trace (snd r)))
       ++ ["upgrade successful. Rebooting ..."].
Proof.
  intros r d url1 url2 srv.
  destruct (randint_5_15 (random e) 0) as [Hd Hbounds].
  split; [exact Hd |]. split; [exact Hbounds |].
  repeat split; reflexivity.
Qed.
End QuietRuns.

(** ** The security-version downgrade *)

Section AntiRollback.
Import Runner FaultInjector.
Implicit Types (e : env) (w : world) (files : gmap string bytes) (c : bytes).

Ltac run_step :=
  erewrite bind_run by reflexivity;
  cbn [fs procs vars trace calls draws].

Example marker_mentions_versions :
  String.index 0 "0 < 1" security_version_marker = Some 61%nat.
Proof. reflexivity. Qed.

(** C7: the downgrade copies the whole source to a new file and writes
    the byte 0 at offset 36; every other byte of the source is kept, the
    source itself is untouched, and when the source holds the offset the
    new file is the source with that one byte replaced. In the run in
    which every expectation is met, the scenario serves the original image
    first and then the lowered one, and the expectation that follows is
    the version-mismatch marker, which contains "0 < 1". *)
Theorem anti_rollback_scenario_run e files c :
  files !! os_path_join (binary_path e) bin_name = Some c ->
  let out := os_path_join (binary_path e) anti_rollback_bin_name in
  let lowered := write_at SECURE_VERSION_OFFSET [0] c in
  let r := test_examples_protocol_advanced_https_ota_example_anti_rollback
             (quiet e) (init_world files) in
  let host_ip := host_ip4_by_dest_ip e (capture e 5%nat) in
  anti_rollback_bin files (binary_path e) = Ok (<[out := lowered]> files)
  /\ lowered !! SECURE_VERSION_OFFSET = Some 0
  /\ (forall i : nat, i <> SECURE_VERSION_OFFSET -> (i < length c)%nat ->
                      lowered !! i = c !! i)
  /\ length lowered = (length c `max` S SECURE_VERSION_OFFSET)%nat
  /\ ((SECURE_VERSION_OFFSET < length c)%nat ->
      lowered = <[SECURE_VERSION_OFFSET := 0]> c)
  /\ <[out := lowered]> files !! os_path_join (binary_path e) bin_name = Some c
  /\ fst r = Ok tt
  /\ trace (snd r) =
       [ EvEraseFlash; EvFlash; EvStart 0;
         EvExpect "Loaded app from partition at offset" (Some 30);
         EvExpect ipv4_pattern (Some 30);
         EvExpect "Starting Advanced OTA example" (Some 30);
         EvWrite (url host_ip "8001" bin_name);
         EvExpect "Loaded app from partition at offset" (Some 60);
         EvExpect ipv4_pattern (Some 30);
         EvExpect "App is valid, rollback cancelled successfully" (Some 30);
         EvExpect "Starting Advanced OTA example" (Some 30);
         EvWrite (url host_ip "8001" anti_rollback_bin_name);
         EvExpect security_version_marker (Some 30);
         EvRemove out;
         EvTerminate 0 ]
  /\ String.index 0 "0 < 1" security_version_marker = Some 61%nat
  /\ running (snd r) = [].
Proof.
  intros Hc out lowered r host_ip.
  split; [apply anti_rollback_bin_spec; exact Hc |].
  split; [apply write_byte_at_lookup |].
  split; [intros i Hi Hlen; apply write_byte_at_other; assumption |].
  split; [apply write_byte_at_length |].
  split; [apply write_byte_at_insert |].
  split.
  { rewrite lookup_insert_ne; [exact Hc |].
    apply not_eq_sym, artifact_is_a_new_file; [reflexivity | discriminate]. }
  split; [| split; [| split; [reflexivity |]]]; subst r;
    unfold test_examples_protocol_advanced_https_ota_example_anti_rollback, init_world;
    do 3 run_step;
    (erewrite bind_update_fs by (apply anti_rollback_bin_spec; exact Hc));
    cbn [fs procs vars trace calls draws];
    do 3 run_step;
    (erewrite try_finally_run; [| do 11 run_step; apply remove_quietly_quiet]);
    reflexivity.
Qed.
End AntiRollback.

(** ** Scenario runner: what leaves the processes alone *)

Section Frames.
Import Runner.
Implicit Types (e : env) (w : world).
Local Open Scope scenario_scope.

Lemma frame_ret {A} (a : A) : frame (ret a).
Proof. intros e w. split; reflexivity. Qed.

Lemma frame_raise {A} (x : exn) : frame (@raise A x).
Proof. intros e w. split; reflexivity. Qed.

Lemma frame_lift {A} (r : result A) : frame (lift r).
Proof. intros e w. split; reflexivity. Qed.

Lemma frame_ask {A} (f : env -> A) : frame (ask f).
Proof. intros e w. split; reflexivity. Qed.

Lemma frame_log ev : frame (log ev).
Proof. intros e w. split; reflexivity. Qed.

Lemma frame_call : frame call.
Proof. intros e w. unfold call. destruct (outcome e (calls w)); split; reflexivity. Qed.

Lemma frame_bind {A B} (m : M A) (k : A -> M B) :
  frame m -> (forall a, frame (k a)) -> frame (bind m k).
Proof.
  intros Hm Hk e w. unfold bind. specialize (Hm e w).
  destruct (m e w) as [[a | x] w']; simpl in Hm.
  - destruct Hm as [Hp0 Hv0]. destruct (Hk a e w') as [Hp Hv]. split; congruence.
  - exact Hm.
Qed.

Lemma frame_try_except {A} (body : M A) catches handler :
  frame body -> frame handler -> frame (try_except body catches handler).
Proof.
  intros Hb Hh e w. unfold try_except. specialize (Hb e w).
  destruct (body e w) as [[a | x] w']; simpl in Hb; [exact Hb |].
  destruct (catches x); [| exact Hb].
  destruct Hb as [Hp0 Hv0]. destruct (Hh e w') as [Hp Hv]. split; congruence.
Qed.

Lemma frame_try_finally {A} (body : M A) fin :
  frame body -> frame fin -> frame (try_finally body fin).
Proof.
  intros Hb Hf e w. unfold try_finally. specialize (Hb e w).
  destruct (body e w) as [r w']; simpl in Hb.
  specialize (Hf e w'). destruct (fin e w') as [[[] | x] w'']; simpl in Hf;
    destruct Hf, Hb; split; simpl; congruence.
Qed.

Lemma frame_for_range n body : frame body -> frame (for_range n body).
Proof.
  intros Hb. induction n as [| n IH]; simpl.
  - apply frame_ret.
  - apply frame_bind; [exact Hb | intros _; exact IH].
Qed.

Lemma frame_update_fs f : frame (update_fs f).
Proof. intros e w. unfold update_fs. destruct (f (fs w)); split; reflexivity. Qed.

Lemma frame_update_fs_random f : frame (update_fs_random f).
Proof.
  intros e w. unfold update_fs_random.
  destruct (f (random e) (draws w) (fs w)) as [[fs' k'] | x]; split; reflexivity.
Qed.

Lemma frame_os_path_getsize file : frame (os_path_getsize file).
Proof. intros e w. unfold os_path_getsize. destruct (fs w !! file); split; reflexivity. Qed.

Lemma frame_random_randint a b : frame (random_randint a b).
Proof. intros e w. split; reflexivity. Qed.

Lemma frame_if {A} (b : bool) (m1 m2 : M A) :
  frame m1 -> frame m2 -> frame (if b then m1 else m2).
Proof. destruct b; auto. Qed.

Lemma frame_int_of_cfg v : frame (int_of_cfg v).
Proof.
  destruct v as [[z | b | s] |]; simpl;
    try apply frame_ret; try apply frame_raise.
  apply frame_bind; [apply frame_ask |].
  intros p. destruct (p s); [apply frame_ret | apply frame_raise].
Qed.
End Frames.

Create HintDb frame.

#[local] Hint Resolve frame_ret frame_raise frame_lift frame_ask frame_log
  frame_call frame_update_fs frame_update_fs_random frame_os_path_getsize
  frame_random_randint frame_int_of_cfg : frame.

Ltac head_of t :=
  lazymatch t with
  | ?f _ => head_of f
  | _ => t
  end.

Ltac frame_solve :=
  lazymatch goal with
  | |- frame (Runner.bind _ _) =>
      apply frame_bind; [frame_solve | intros; frame_solve]
  | |- frame (Runner.try_except _ _ _) =>
      apply frame_try_except; frame_solve
  | |- frame (Runner.try_finally _ _) =>
      apply frame_try_finally; frame_solve
  | |- frame (Runner.for_range _ _) =>
      apply frame_for_range; frame_solve
  | |- frame (if _ then _ else _) =>
      apply frame_if; frame_solve
  | |- frame (let _ := _ in _) => cbv zeta; frame_solve
  | |- frame ?m =>
      first [ solve [auto with frame]
            | let h := head_of m in unfold h; frame_solve ]
  end.

(** ** Scenario runner: the guarded region *)

Section Triples.
Import Runner.
Implicit Types (e : env) (w : world) (v : var) (P R Qn Qe : world -> Prop).
Local Open Scope scenario_scope.

Lemma running_from_nil ps : forall h0,
  running_from h0 ps = [] <->
  (forall (h : nat) p, ps !! h = Some p -> is_running p = false).
Proof.
  induction ps as [| p ps IH]; intros h0; simpl.
  - split; [intros _ h p Hp; discriminate Hp | reflexivity].
  - destruct (is_running p) eqn:Hrun.
    + split; [discriminate |]. intros Hall.
      specialize (Hall 0%nat p eq_refl). congruence.
    + rewrite IH. split.
      * intros Hall [| h] q; simpl; [intros [= <-]; exact Hrun | apply Hall].
      * intros Hall h q Hq. apply (Hall (S h) q). exact Hq.
Qed.

Lemma running_nil_stopped w : running w = [] <-> stopped w.
Proof. apply running_from_nil. Qed.

Lemma stopped_tracked v w : stopped w -> tracked v w.
Proof. intros Hs h p Hp Hrun. rewrite (Hs h p Hp) in Hrun. discriminate Hrun. Qed.

Lemma on_processes_stopped : on_processes stopped.
Proof. intros w w' Hp _ Hs h p. rewrite Hp. apply Hs. Qed.

Lemma on_processes_tracked v : on_processes (tracked v).
Proof. intros w w' Hp Hv Ht h p. rewrite Hp, Hv. apply Ht. Qed.

Lemma triple_bind {A B} P R Qn Qe (m : M A) (k : A -> M B) :
  triple P m R Qe -> (forall a, triple R (k a) Qn Qe) ->
  triple P (bind m k) Qn Qe.
Proof.
  intros Hm Hk e w HP. specialize (Hm e w HP). unfold bind.
  destruct (m e w) as [[a | x] w']; simpl in Hm |- *.
  - apply (Hk a e w' Hm).
  - exact Hm.
Qed.

Lemma triple_frame {A} P Qe (m : M A) :
  frame m -> on_processes P -> (forall w, P w -> Qe w) -> triple P m P Qe.
Proof.
  intros Hf HP Hsub e w Hw. destruct (Hf e w) as [Hp Hv].
  assert (Hw' : P (snd (m e w))) by (eapply HP; eassumption).
  destruct (fst (m e w)); auto.
Qed.

Lemma triple_try_finally {A} P R Q (body : M A) fin :
  triple P body R R -> triple R fin Q Q -> triple P (try_finally body fin) Q Q.
Proof.
  intros Hb Hf e w HP. specialize (Hb e w HP). unfold try_finally.
  destruct (body e w) as [r w']; simpl in Hb.
  assert (HR : R w') by (destruct r; exact Hb).
  specialize (Hf e w' HR).
  destruct (fin e w') as [[[] | x] w'']; simpl in Hf |- *; [destruct r |]; exact Hf.
Qed.

Lemma stopped_add w p :
  stopped w -> is_running p = false ->
  forall (h : nat) q, (procs w ++ [p]) !! h = Some q -> is_running q = false.
Proof.
  intros Hs Hp h q Hq. apply lookup_app_Some in Hq as [Hq | [_ Hq]].
  - apply (Hs h q Hq).
  - apply list_lookup_singleton_Some in Hq as [_ <-]. exact Hp.
Qed.

Lemma triple_Process_new v srv Qe :
  (forall w, stopped w -> Qe w) ->
  triple stopped (Process_new v srv) stopped Qe.
Proof.
  intros Hsub e w Hw. unfold Process_new, bind, call, add_proc, set_var.
  destruct (outcome e (calls w)); simpl.
  - apply Hsub. exact Hw.
  - intros h q Hq. simpl in Hq.
    eapply stopped_add; [exact Hw | | exact Hq]; reflexivity.
Qed.

Lemma lookup_set_daemon (ps : list proc) (h h' : nat) p d q :
  ps !! h = Some p ->
  <[h := {| target := target p; daemon := d; state := state p |}]> ps !! h' = Some q ->
  exists q', ps !! h' = Some q' /\ is_running q' = is_running q.
Proof.
  intros Hp Hq. apply list_lookup_insert_Some in Hq as [(-> & <- & _) | [_ Hq]].
  - exists p. split; [exact Hp | reflexivity].
  - exists q. split; [exact Hq | reflexivity].
Qed.

Lemma triple_Process_set_daemon P Qe v d :
  P = stopped \/ (exists v', P = tracked v') ->
  (forall w, P w -> Qe w) ->
  triple P (Process_set_daemon v d) P Qe.
Proof.
  intros HP Hsub e w Hw. unfold Process_set_daemon, bind, get_var, get_proc, set_proc.
  destruct (vars w v) as [h |]; simpl; [| apply Hsub; exact Hw].
  destruct (procs w !! h) as [p |] eqn:Hp; simpl; [| apply Hsub; exact Hw].
  destruct HP as [-> | [v' ->]].
  - intros h' q Hq. destruct (lookup_set_daemon _ _ _ _ _ _ Hp Hq) as (q' & Hq' & <-).
    apply (Hw h' q' Hq').
  - intros h' q Hq Hrun.
    destruct (lookup_set_daemon _ _ _ _ _ _ Hp Hq) as (q' & Hq' & Heq).
    apply (Hw h' q' Hq'). congruence.
Qed.

Lemma triple_Process_start v Qe :
  (forall w, stopped w -> Qe w) ->
  triple stopped (Process_start v) (tracked v) Qe.
Proof.
  intros Hsub e w Hw. unfold Process_start, bind, get_var, get_proc, call, set_proc, log.
  destruct (vars w v) as [h |] eqn:Hv; simpl; [| apply Hsub; exact Hw].
  destruct (procs w !! h) as [p |] eqn:Hp; simpl; [| apply Hsub; exact Hw].
  destruct (state p); simpl; try (apply Hsub; exact Hw).
  unfold bind, call, set_proc, log.
  destruct (outcome e (calls w)); simpl; [apply Hsub; exact Hw |].
  intros h' q Hq Hrun. simpl in Hq |- *.
  apply list_lookup_insert_Some in Hq as [(-> & _ & _) | [_ Hq]]; [exact Hv |].
  rewrite (Hw h' q Hq) in Hrun. discriminate Hrun.
Qed.

Lemma tracked_stop v w h p st :
  tracked v w -> vars w v = Some h -> procs w !! h = Some p ->
  forall (h' : nat) q,
    <[h := {| target := target p; daemon := daemon p; state := st |}]> (procs w) !! h'
      = Some q ->
    st <> Running -> is_running q = false.
Proof.
  intros Ht Hv Hp h' q Hq Hst.
  apply list_lookup_insert_Some in Hq as [(-> & <- & _) | [Hne Hq]].
  - unfold is_running. simpl. destruct st; congruence.
  - destruct (is_running q) eqn:Hrun; [| reflexivity].
    specialize (Ht h' q Hq Hrun). congruence.
Qed.

Lemma tracked_not_running v w :
  tracked v w ->
  (forall h p, vars w v = Some h -> procs w !! h = Some p -> is_running p = false) ->
  stopped w.
Proof.
  intros Ht Hnot h q Hq. destruct (is_running q) eqn:Hrun; [| reflexivity].
  rewrite <- Hrun. apply (Hnot h q); [apply (Ht h q Hq Hrun) | exact Hq].
Qed.

(** Leaving the guarded region: after [terminate] (or [kill]) on the one
    handle that may be running, nothing is running, on both exits. *)
Lemma triple_Process_terminate v Qe :
  (forall w, stopped w -> Qe w) ->
  triple (tracked v) (Process_terminate v) stopped Qe.
Proof.
  intros Hsub e w Hw. unfold Process_terminate, bind, get_var, get_proc.
  destruct (vars w v) as [h |] eqn:Hv; simpl.
  2:{ apply Hsub, (tracked_not_running v w Hw). intros h p Hh. congruence. }
  destruct (procs w !! h) as [p |] eqn:Hp; simpl.
  2:{ apply Hsub, (tracked_not_running v w Hw). intros h' p' Hh. congruence. }
  destruct (state p) eqn:Hst; simpl.
  - apply Hsub, (tracked_not_running v w Hw). intros h' p' Hh Hp'.
    assert (p' = p) by congruence. subst p'. unfold is_running. rewrite Hst. reflexivity.
  - intros h' q Hq. simpl in Hq.
    apply (tracked_stop v w h p Terminated Hw Hv Hp h' q Hq). discriminate.
  - apply (tracked_not_running v w Hw). intros h' p' Hh Hp'.
    assert (p' = p) by congruence. subst p'. unfold is_running. rewrite Hst. reflexivity.
Qed.

Lemma triple_Popen_kill v Qe :
  (forall w, stopped w -> Qe w) ->
  triple (tracked v) (Popen_kill v) stopped Qe.
Proof.
  intros Hsub e w Hw. unfold Popen_kill, bind, get_var, get_proc.
  destruct (vars w v) as [h |] eqn:Hv; simpl.
  2:{ apply Hsub, (tracked_not_running v w Hw). intros h p Hh. congruence. }
  destruct (procs w !! h) as [p |] eqn:Hp; simpl.
  2:{ apply Hsub, (tracked_not_running v w Hw). intros h' p' Hh. congruence. }
  destruct (state p) eqn:Hst; simpl.
  - apply (tracked_not_running v w Hw). intros h' p' Hh Hp'.
    assert (p' = p) by congruence. subst p'. unfold is_running. rewrite Hst. reflexivity.
  - intros h' q Hq. simpl in Hq.
    apply (tracked_stop v w h p Terminated Hw Hv Hp h' q Hq). discriminate.
  - apply (tracked_not_running v w Hw). intros h' p' Hh Hp'.
    assert (p' = p) by congruence. subst p'. unfold is_running. rewrite Hst. reflexivity.
Qed.

Lemma triple_Popen_chunked_server v dir port Qe :
  (forall w, stopped w -> Qe w) ->
  triple stopped (Popen_chunked_server v dir port) (tracked v) Qe.
Proof.
  intros Hsub e w Hw.
  unfold Popen_chunked_server, bind, call, ask, add_proc, log, set_var.
  destruct (outcome e (calls w)); simpl; [apply Hsub; exact Hw |].
  destruct (outcome e (S (calls w))); simpl; [apply Hsub; exact Hw |].
  intros h q Hq Hrun. simpl in Hq |- *.
  apply lookup_app_Some in Hq as [Hq | [Hlen Hq]].
  - rewrite (Hw h q Hq) in Hrun. discriminate Hrun.
  - apply list_lookup_singleton_Some in Hq as [Hh _].
    destruct v; simpl; f_equal; lia.
Qed.
End Triples.

(** ** Scenario runner: teardown *)

Ltac side_solve :=
  first [ intros ? H; exact H
        | intros ?; apply stopped_tracked ].

Ltac on_processes_solve :=
  first [ apply on_processes_stopped | apply on_processes_tracked ].

Ltac triple_solve :=
  lazymatch goal with
  | |- triple _ (let _ := _ in _) _ _ => cbv zeta; triple_solve
  | |- triple _ (Runner.bind _ _) _ _ =>
      eapply triple_bind; [triple_solve | intros; triple_solve]
  | |- triple ?P (Runner.try_finally _ (Runner.Process_terminate ?v)) _ _ =>
      apply (triple_try_finally P (tracked v) stopped); [triple_solve | triple_solve]
  | |- triple ?P (Runner.try_finally _ (Runner.Popen_kill ?v)) _ _ =>
      apply (triple_try_finally P (tracked v) stopped); [triple_solve | triple_solve]
  | |- triple _ (Runner.Process_new _ _) _ _ =>
      apply triple_Process_new; side_solve
  | |- triple _ (Runner.new_https_server _ _ _) _ _ =>
      unfold Runner.new_https_server; triple_solve
  | |- triple _ (Runner.Process_set_daemon _ _) _ _ =>
      apply triple_Process_set_daemon;
      [first [left; reflexivity | right; eexists; reflexivity] | side_solve]
  | |- triple _ (Runner.Process_start _) _ _ =>
      apply triple_Process_start; side_solve
  | |- triple _ (Runner.Process_terminate _) _ _ =>
      apply triple_Process_terminate; side_solve
  | |- triple _ (Runner.Popen_chunked_server _ _ _) _ _ =>
      apply triple_Popen_chunked_server; side_solve
  | |- triple _ (Runner.Popen_kill _) _ _ =>
      apply triple_Popen_kill; side_solve
  | |- triple _ _ _ _ =>
      apply triple_frame; [frame_solve | on_processes_solve | side_solve]
  end.

Section Teardown.
Import Runner.

(** Every scenario that opens its guarded region right after its one
    service is started leaves no service running, whichever calls raise. *)
Lemma single_service_scenarios_clean :
  Forall (fun s => triple stopped s stopped stopped) single_service_scenarios.
Proof.
  unfold single_service_scenarios.
  repeat constructor.
  all: unfold test_examples_protocol_advanced_https_ota_example,
    test_examples_protocol_advanced_https_ota_example_ota_resumption,
    test_examples_protocol_advanced_https_ota_example_truncated_bin,
    test_examples_protocol_advanced_https_ota_example_truncated_header,
    test_examples_protocol_advanced_https_ota_example_random,
    test_examples_protocol_advanced_https_ota_example_invalid_chip_id,
    test_examples_protocol_advanced_https_ota_example_chunked,
    test_examples_protocol_advanced_https_ota_example_anti_rollback,
    test_examples_protocol_advanced_https_ota_example_partial_request,
    test_examples_protocol_advanced_https_ota_example_ota_resumption_partial_download_request,
    test_examples_protocol_advanced_https_ota_example_nimble_gatts,
    test_examples_protocol_advanced_https_ota_example_bluedroid_gatts,
    test_examples_protocol_advanced_https_ota_example_openssl_aligned_bin,
    test_examples_protocol_advanced_https_ota_example_verify_min_chip_revision,
    test_examples_protocol_advanced_https_ota_example_verify_max_chip_revision,
    chip_revision_scenario.
  all: triple_solve.
Qed.
End Teardown.

Section TeardownOnEveryPath.
Import Runner.
Implicit Types (e : env) (w : world) (files : gmap string bytes).

Lemma single_service_scenarios_stop_their_service (s : M unit) e w :
  In s single_service_scenarios ->
  running w = [] -> running (snd (s e w)) = [].
Proof.
  intros Hs Hw. apply running_nil_stopped in Hw.
  pose proof single_service_scenarios_clean as Hall.
  rewrite List.Forall_forall in Hall. specialize (Hall s Hs e w Hw).
  apply running_nil_stopped. destruct (fst (s e w)); exact Hall.
Qed.

(** C2: the redirect scenario starts its three services and sleeps before
    it enters the guarded region. When the start of the second service
    raises (the call number 8), the scenario ends with that exception and
    the first service is still running: it was started and no exit path
    terminates it. When the sleep is interrupted (the call number 10) all
    three are left running. Once the guarded region is entered, every
    service is terminated, whether the body raises (the call number 11 is
    the write to the device) or returns. *)
Theorem redirect_scenario_leaks_started_service e files :
  let scenario := test_examples_protocol_advanced_https_ota_example_redirect_url in
  let r8 := scenario (failing_at 8 OSError e) (init_world files) in
  let r10 := scenario (failing_at 10 KeyboardInterrupt e) (init_world files) in
  let r11 := scenario (failing_at 11 TIMEOUT e) (init_world files) in
  let r := scenario (quiet e) (init_world files) in
  fst r8 = Raise OSError
  /\ trace (snd r8) =
       [ EvExpect "Loaded app from partition at offset" (Some 30);
         EvExpect ipv4_pattern (Some 30);
         EvExpect "Starting Advanced OTA example" (Some 30);
         EvStart 0 ]
  /\ map state (procs (snd r8)) = [Running; Created; Created]
  /\ running (snd r8) = [0%nat]
  /\ fst r10 = Raise KeyboardInterrupt
  /\ running (snd r10) = [0%nat; 1%nat; 2%nat]
  /\ fst r11 = Raise TIMEOUT
  /\ running (snd r11) = []
  /\ fst r = Ok tt
  /\ running (snd r) = [].
Proof.
  intros scenario r8 r10 r11 r. repeat split; reflexivity.
Qed.
End TeardownOnEveryPath.

Section AntiRollbackExample.
Import Runner FaultInjector.

Lemma anti_rollback_scenario_run_witness :
  sample_fs !! os_path_join (binary_path sample_env) bin_name = Some sample_image
  /\ sample_image !! SECURE_VERSION_OFFSET = Some 1
  /\ anti_rollback_bin sample_fs (binary_path sample_env)
     = Ok (<[os_path_join (binary_path sample_env) anti_rollback_bin_name
             := write_at SECURE_VERSION_OFFSET [0] sample_image]> sample_fs)
  /\ write_at SECURE_VERSION_OFFSET [0] sample_image !! SECURE_VERSION_OFFSET = Some 0
  /\ write_at SECURE_VERSION_OFFSET [0] sample_image
     = <[SECURE_VERSION_OFFSET := 0]> sample_image
  /\ fst (test_examples_protocol_advanced_https_ota_example_anti_rollback
            (quiet sample_env) (init_world sample_fs)) = Ok tt
  /\ last (expectations
             (trace (snd (test_examples_protocol_advanced_https_ota_example_anti_rollback
                            (quiet sample_env) (init_world sample_fs)))))
     = Some security_version_marker.
Proof.
  destruct (anti_rollback_scenario_run sample_env sample_fs sample_image eq_refl)
    as (Hbin & Hzero & _ & _ & Hins & _ & Hok & Htrace & _ & _).
  split; [reflexivity |]. split; [reflexivity |].
  split; [exact Hbin |]. split; [exact Hzero |].
  split; [apply Hins; vm_compute; lia |].
  split; [exact Hok |].
  rewrite Htrace. reflexivity.
Defined.
End AntiRollbackExample.

(** * Further properties of the fault injector *)

Section RevisionEditEdges.
Import FaultInjector.
Implicit Types (fs : gmap string bytes) (c : bytes).

(** How [modify_chip_revision] fails when every read and write completes:
    a missing file is a [FileNotFoundError], a file that does not hold an
    offset the call edits is an [IndexError], every other call returns. *)
Lemma modify_chip_revision_failures fs app_path min_rev max_rev inc :
  match fs !! app_path with
  | None =>
      modify_chip_revision fs app_path min_rev max_rev inc = Raise FileNotFoundError
  | Some c =>
      if lacks_offset c min_rev max_rev inc
      then modify_chip_revision fs app_path min_rev max_rev inc = Raise IndexError
      else exists c',
             modify_chip_revision fs app_path min_rev max_rev inc
               = Ok (<[app_path := c']> fs)
             /\ length c' = length c
  end.
Proof.
  destruct (fs !! app_path) as [c |] eqn:Hc.
  2:{ unfold modify_chip_revision. rewrite Hc. reflexivity. }
  rewrite (modify_chip_revision_in_place _ _ _ _ _ _ Hc).
  unfold lacks_offset, edit_min, edit_max, getitem.
  unfold TARGET_OFFSET_MIN_REV, TARGET_OFFSET_MAX_REV.
  destruct (Nat.leb_spec (length c) 15) as [Hs15 | Hl15].
  - (* nothing at offset 0x0F, so nothing at 0x11 either *)
    destruct (Nat.leb_spec (length c) 17) as [_ | ?]; [| lia].
    rewrite (lookup_ge_None_2 c 15) by lia.
    destruct inc; simpl; [reflexivity |].
    destruct min_rev as [m |]; simpl.
    + rewrite setitem_raise by lia. reflexivity.
    + destruct max_rev as [m |]; simpl.
      * rewrite setitem_raise by lia. reflexivity.
      * eauto.
  - destruct (c !! 15%nat) as [v |] eqn:Hv;
      [| apply lookup_ge_None_1 in Hv; lia].
    rewrite !andb_false_r. rewrite orb_false_l.
    assert (Hmin : exists c1,
               (if inc
                then (v0 <- Ok v ;; setitem c 15 (Z.land (v0 + 1) 255))%result
                else match min_rev with
                     | Some m => setitem c 15 (Z.land m 255)
                     | None => Ok c
                     end) = Ok c1 /\ length c1 = length c).
    { destruct inc; [| destruct min_rev]; simpl;
        rewrite ?setitem_ok by lia; eexists; split; try reflexivity;
        apply length_insert. }
    destruct Hmin as (c1 & -> & Hl1). simpl.
    destruct max_rev as [m |]; simpl.
    + destruct (Nat.leb_spec (length c) 17) as [Hs17 | Hl17].
      * rewrite setitem_raise by lia. reflexivity.
      * rewrite setitem_ok by lia. simpl. eexists. split; [reflexivity |].
        rewrite length_insert. exact Hl1.
    + eexists. split; [reflexivity | exact Hl1].
Qed.

Lemma modify_chip_revision_io_on_file os fs app_path c min_rev max_rev inc :
  fs !! app_path = Some c ->
  on_read os = None ->
  modify_chip_revision_io os fs app_path min_rev max_rev inc
  = except_IOError
      (fs' <- modify_chip_revision fs app_path min_rev max_rev inc ;;
       _ <- fault (on_write os) ;;
       Ok fs')%result.
Proof.
  intros Hc Hread. unfold modify_chip_revision_io, modify_chip_revision.
  rewrite Hc, Hread. rewrite bool_decide_true by eauto. cbn [orb negb rbind fault].
  f_equal.
  destruct inc; [| destruct min_rev];
    repeat (match goal with
            | |- context [getitem ?b ?i] => destruct (getitem b i); cbn [rbind]
            | |- context [setitem ?b ?i ?v] => destruct (setitem b i v); cbn [rbind]
            | |- context [match max_rev with _ => _ end] => destruct max_rev; cbn [rbind]
            end);
    reflexivity.
Qed.

(** X1: how [modify_chip_revision] fails. A path that does not exist is
    a [FileNotFoundError]. An [OSError] raised while the file is opened
    and read, or reopened and written (a directory at the path, a read or
    write that fails), reaches the caller as a [RuntimeError]. A file that
    does not hold an offset the call edits is an [IndexError], raised
    before the write and not converted. Every other call returns, and the
    file keeps its length. With no failure of the operating system, the
    function is [modify_chip_revision] as used above. *)
Theorem modify_chip_revision_io_failures os fs app_path min_rev max_rev inc :
  modify_chip_revision_io no_faults fs app_path min_rev max_rev inc
    = modify_chip_revision fs app_path min_rev max_rev inc
  /\ match fs !! app_path with
     | None =>
         modify_chip_revision_io os fs app_path min_rev max_rev inc
         = if bool_decide (app_path ∈ directories os)
           then Raise RuntimeError
           else Raise FileNotFoundError
     | Some c =>
         match on_read os with
         | Some x =>
             modify_chip_revision_io os fs app_path min_rev max_rev inc
             = Raise (reraised x)
         | None =>
             if lacks_offset c min_rev max_rev inc
             then modify_chip_revision_io os fs app_path min_rev max_rev inc
                  = Raise IndexError
             else
               match on_write os with
               | Some x =>
                   modify_chip_revision_io os fs app_path min_rev max_rev inc
                   = Raise (reraised x)
               | None =>
                   exists c',
                     modify_chip_revision_io os fs app_path min_rev max_rev inc
                       = Ok (<[app_path := c']> fs)
                     /\ length c' = length c
               end
         end
     end.
Proof.
  pose proof (modify_chip_revision_failures fs app_path min_rev max_rev inc) as Hplain.
  destruct (fs !! app_path) as [c |] eqn:Hc.
  - split.
    + rewrite (modify_chip_revision_io_on_file no_faults _ _ c) by (exact Hc || reflexivity).
      cbn [fault on_write no_faults].
      destruct (lacks_offset c min_rev max_rev inc).
      * rewrite Hplain. reflexivity.
      * destruct Hplain as (c' & -> & _). reflexivity.
    + destruct (on_read os) as [x |] eqn:Hread.
      * unfold modify_chip_revision_io. rewrite Hc, Hread.
        rewrite bool_decide_true by eauto.
        cbn [orb negb rbind fault except_IOError]. unfold reraised.
        destruct (is_OSError x); reflexivity.
      * rewrite (modify_chip_revision_io_on_file os _ _ c) by assumption.
        destruct (lacks_offset c min_rev max_rev inc).
        -- rewrite Hplain. reflexivity.
        -- destruct Hplain as (c' & -> & Hlen). cbn [rbind].
           destruct (on_write os) as [x |]; cbn [fault rbind except_IOError].
           ++ unfold reraised. destruct (is_OSError x); reflexivity.
           ++ exists c'. split; [reflexivity | exact Hlen].
  - split.
    + unfold modify_chip_revision_io. rewrite Hc, Hplain.
      rewrite bool_decide_false by (intros [? ?]; discriminate). reflexivity.
    + unfold modify_chip_revision_io. rewrite Hc.
      rewrite bool_decide_false by (intros [? ?]; discriminate).
      destruct (bool_decide (app_path ∈ directories os)); reflexivity.
Qed.

(** A directory at the path passes the existence check and fails at the
    open; a write that fails on a full disk is reported the same way. *)
Example modify_chip_revision_of_a_directory :
  modify_chip_revision_io
    {| directories := [sample_path]; on_read := None; on_write := None |}
    ∅ sample_path None None true
  = Raise RuntimeError.
Proof. vm_compute. reflexivity. Qed.

Example modify_chip_revision_write_failure :
  modify_chip_revision_io
    {| directories := []; on_read := None; on_write := Some OSError |}
    sample_fs sample_path (Some 3) None false
  = Raise RuntimeError.
Proof. vm_compute. reflexivity. Qed.

(** X2: a call that sets revisions (no increment) is idempotent: made
    again on its own result, it changes nothing. A call that neither sets
    nor increments anything rewrites the header as it was: the file system
    is unchanged. *)
Theorem modify_chip_revision_set_idempotent fs fs' app_path min_rev max_rev :
  modify_chip_revision fs app_path min_rev max_rev false = Ok fs' ->
  modify_chip_revision fs' app_path min_rev max_rev false = Ok fs'
  /\ (min_rev = None -> max_rev = None -> fs' = fs).
Proof.
  intros Hrun.
  destruct (fs !! app_path) as [c |] eqn:Hc;
    [| unfold modify_chip_revision in Hrun; rewrite Hc in Hrun; discriminate Hrun].
  rewrite (modify_chip_revision_in_place _ _ _ _ _ _ Hc) in Hrun.
  destruct (edit_min c min_rev false) as [c1 |] eqn:H1; simpl in Hrun; [| discriminate].
  destruct (edit_max c1 max_rev) as [c2 |] eqn:H2; simpl in Hrun; [| discriminate].
  injection Hrun as <-.
  split.
  - rewrite (modify_chip_revision_in_place _ _ c2) by apply lookup_insert_eq.
    assert (Hl1 : length c1 = length c) by (eapply edit_min_length; exact H1).
    assert (Hl2 : length c2 = length c1) by (eapply edit_max_length; exact H2).
    assert (Hagain1 : edit_min c2 min_rev false = Ok c2).
    { unfold edit_min in *. destruct min_rev as [m |]; [| reflexivity].
      unfold setitem in *.
      destruct (Nat.ltb_spec TARGET_OFFSET_MIN_REV (length c)); [| discriminate].
      destruct (Nat.ltb_spec TARGET_OFFSET_MIN_REV (length c2)); [| lia].
      injection H1 as <-. f_equal. apply list_insert_id.
      unfold edit_max, setitem in H2. destruct max_rev as [m' |].
      - destruct (TARGET_OFFSET_MAX_REV <? _)%nat; [| discriminate].
        injection H2 as <-. rewrite list_lookup_insert_ne by discriminate.
        apply list_lookup_insert_eq. assumption.
      - injection H2 as <-. apply list_lookup_insert_eq. assumption. }
    rewrite Hagain1. simpl.
    assert (Hagain2 : edit_max c2 max_rev = Ok c2).
    { unfold edit_max in *. destruct max_rev as [m |]; [| reflexivity].
      unfold setitem in *.
      destruct (Nat.ltb_spec TARGET_OFFSET_MAX_REV (length c1)); [| discriminate].
      destruct (Nat.ltb_spec TARGET_OFFSET_MAX_REV (length c2)); [| lia].
      injection H2 as <-. f_equal. apply list_insert_id.
      apply list_lookup_insert_eq. assumption. }
    rewrite Hagain2. simpl. rewrite insert_insert_eq. reflexivity.
  - intros -> ->. simpl in H1, H2. injection H1 as <-. injection H2 as <-.
    apply insert_id. exact Hc.
Qed.

Lemma modify_chip_revision_set_idempotent_witness :
  modify_chip_revision sample_fs sample_path (Some 0) (Some 2) false
    = Ok (<[sample_path := <[17%nat := 2]> (<[15%nat := 0]> sample_image)]> sample_fs)
  /\ modify_chip_revision
       (<[sample_path := <[17%nat := 2]> (<[15%nat := 0]> sample_image)]> sample_fs)
       sample_path (Some 0) (Some 2) false
     = Ok (<[sample_path := <[17%nat := 2]> (<[15%nat := 0]> sample_image)]> sample_fs).
Proof.
  assert (Hrun : modify_chip_revision sample_fs sample_path (Some 0) (Some 2) false
                 = Ok (<[sample_path := <[17%nat := 2]> (<[15%nat := 0]> sample_image)]>
                         sample_fs)).
  { rewrite (modify_chip_revision_in_place _ _ sample_image) by reflexivity.
    reflexivity. }
  split; [exact Hrun |].
  apply (modify_chip_revision_set_idempotent sample_fs _ sample_path (Some 0) (Some 2) Hrun).
Defined.

(** X3: an edit of the minimum revision followed by a call that sets the
    maximum revision is the single call that does both: the two edits
    touch different offsets of the same header. *)
Theorem modify_chip_revision_composes fs fs1 fs2 app_path min_rev max_rev inc :
  modify_chip_revision fs app_path min_rev None inc = Ok fs1 ->
  modify_chip_revision fs1 app_path None max_rev false = Ok fs2 ->
  modify_chip_revision fs app_path min_rev max_rev inc = Ok fs2.
Proof.
  intros Hfirst Hsecond.
  destruct (fs !! app_path) as [c |] eqn:Hc;
    [| unfold modify_chip_revision in Hfirst; rewrite Hc in Hfirst; discriminate Hfirst].
  rewrite (modify_chip_revision_in_place _ _ _ _ _ _ Hc) in Hfirst.
  rewrite (modify_chip_revision_in_place _ _ _ _ _ _ Hc).
  destruct (edit_min c min_rev inc) as [c1 |] eqn:H1; simpl in Hfirst |- *;
    [| discriminate].
  injection Hfirst as <-.
  rewrite (modify_chip_revision_in_place _ _ c1) in Hsecond by apply lookup_insert_eq.
  simpl in Hsecond.
  destruct (edit_max c1 max_rev) as [c2 |]; simpl in Hsecond |- *; [| discriminate].
  injection Hsecond as <-. rewrite insert_insert_eq. reflexivity.
Qed.

Lemma modify_chip_revision_composes_witness :
  modify_chip_revision sample_fs sample_path None (Some 2) true
  = Ok (<[sample_path := <[17%nat := 2]> (<[15%nat := 0]> sample_image)]> sample_fs).
Proof.
  apply (modify_chip_revision_composes sample_fs
           (<[sample_path := <[15%nat := 0]> sample_image]> sample_fs)
           _ sample_path None (Some 2) true).
  - rewrite (modify_chip_revision_in_place _ _ sample_image) by reflexivity.
    reflexivity.
  - rewrite (modify_chip_revision_in_place _ _ (<[15%nat := 0]> sample_image))
      by apply lookup_insert_eq.
    vm_compute. reflexivity.
Defined.
End RevisionEditEdges.

Section CopyEdges.
Import FaultInjector.
Implicit Types (fs : gmap string bytes) (c : bytes).

(** X4: a source that is not longer than the truncation size is copied
    whole: the "truncated" file is then the complete image. *)
Theorem truncation_of_short_source_copies_all fs dir c :
  fs !! os_path_join dir bin_name = Some c ->
  Z.of_nat (length c) <= truncated_bin_size ->
  truncated_bin fs dir = Ok (<[os_path_join dir truncated_bin_name := c]> fs).
Proof.
  intros Hc Hlen. rewrite (truncated_bin_spec fs dir c Hc).
  unfold read. destruct (Z.ltb_spec truncated_bin_size 0) as [Hneg | _].
  - reflexivity.
  - rewrite take_ge by lia. reflexivity.
Qed.

Lemma truncation_of_short_source_copies_all_witness :
  truncated_bin long_fs "build"
  = Ok (<[os_path_join "build" truncated_bin_name := long_image]> long_fs).
Proof.
  apply (truncation_of_short_source_copies_all long_fs "build" long_image).
  - reflexivity.
  - rewrite long_image_length. unfold truncated_bin_size. lia.
Defined.

(** X5: the aligned image is the source followed by
    [289 - size mod 289] random bytes, between 1 and 289 of them (a source
    that is already aligned gets a whole block), each in 0..254; its
    length is a multiple of 289, the source file is untouched, and one
    draw is used per padding byte. *)
Theorem aligned_bin_pads_to_block fs dir c (g : rng) (k : nat) :
  fs !! os_path_join dir bin_name = Some c ->
  exists pad,
    aligned_bin g k fs dir
      = Ok (<[os_path_join dir aligned_bin_name := c ++ pad]> fs,
            (k + length pad)%nat)
    /\ Z.of_nat (length pad) = 289 - Z.of_nat (length c) mod 289
    /\ (1 <= length pad <= 289)%nat
    /\ Z.of_nat (length (c ++ pad)) mod 289 = 0
    /\ (forall (i : nat) b, pad !! i = Some b -> 0 <= b < 255)
    /\ <[os_path_join dir aligned_bin_name := c ++ pad]> fs
         !! os_path_join dir bin_name = Some c.
Proof.
  intros Hc.
  assert (Hne : os_path_join dir bin_name <> os_path_join dir aligned_bin_name)
    by (apply artifact_is_a_new_file; [reflexivity | discriminate]).
  pose proof (Z.mod_pos_bound (Z.of_nat (length c)) 289 ltac:(lia)) as Hmod.
  set (n := Z.to_nat (289 - Z.of_nat (length c) mod 289)).
  destruct (random_fill_spec g n k c) as (pad & Hrun & Hlen & Hpad).
  exists pad. unfold aligned_bin. rewrite Hc.
  rewrite lookup_insert_ne by congruence. rewrite Hc. simpl default.
  rewrite read_all, write_at_empty. fold n. rewrite Hrun. simpl.
  rewrite insert_insert_eq, Hlen.
  split; [reflexivity |].
  split; [unfold n; lia |].
  split; [unfold n; lia |].
  split.
  { rewrite length_app, Hlen. unfold n.
    rewrite Nat2Z.inj_add, Z2Nat.id by lia.
    replace (Z.of_nat (length c) + (289 - Z.of_nat (length c) mod 289))
      with (289 * (Z.of_nat (length c) / 289 + 1))
      by (pose proof (Z.div_mod (Z.of_nat (length c)) 289); lia).
    rewrite Z.mul_comm. apply Z.mod_mul. lia. }
  split.
  { intros i b Hb. assert (Hi : (i < n)%nat).
    { rewrite <- Hlen. apply lookup_lt_is_Some. eauto. }
    rewrite (Hpad i Hi) in Hb. injection Hb as <-. apply Z.mod_pos_bound. lia. }
  rewrite lookup_insert_ne by congruence. exact Hc.
Qed.

Lemma aligned_bin_pads_to_block_witness :
  exists pad,
    aligned_bin (fun _ => 300) 0 long_fs "build"
      = Ok (<[os_path_join "build" aligned_bin_name := long_image ++ pad]> long_fs,
            (0 + length pad)%nat)
    /\ Z.of_nat (length pad) = 289 - Z.of_nat (length long_image) mod 289
    /\ (1 <= length pad <= 289)%nat
    /\ Z.of_nat (length (long_image ++ pad)) mod 289 = 0
    /\ (forall (i : nat) b, pad !! i = Some b -> 0 <= b < 255)
    /\ <[os_path_join "build" aligned_bin_name := long_image ++ pad]> long_fs
         !! os_path_join "build" bin_name = Some long_image.
Proof.
  apply (aligned_bin_pads_to_block long_fs "build" long_image (fun _ => 300) 0).
  reflexivity.
Defined.

(** X6: the image with the invalid chip id. A source of fewer than 14
    bytes is an [IndexError], raised before the output is opened;
    otherwise [random.bin] is the first 2000 bytes of the source with the
    byte 0xFE at offset 13, and the source is untouched. *)
Theorem invalid_chip_id_bin_result fs dir c :
  fs !! os_path_join dir bin_name = Some c ->
  if (length c <=? CHIP_ID_OFFSET)%nat
  then invalid_chip_id_bin fs dir = Raise IndexError
  else exists out,
         invalid_chip_id_bin fs dir
           = Ok (<[os_path_join dir random_bin_name := out]> fs)
         /\ out = <[CHIP_ID_OFFSET := 254]> (take 2000 c)
         /\ out !! CHIP_ID_OFFSET = Some 254
         /\ length out = (2000 `min` length c)%nat
         /\ <[os_path_join dir random_bin_name := out]> fs
              !! os_path_join dir bin_name = Some c.
Proof.
  intros Hc. unfold CHIP_ID_OFFSET.
  destruct (Nat.leb_spec (length c) 13) as [Hshort | Hlong].
  - unfold invalid_chip_id_bin. rewrite Hc.
    rewrite setitem_raise; [reflexivity |].
    unfold read, invalid_chip_id_size. simpl. rewrite length_take.
    unfold CHIP_ID_OFFSET. lia.
  - eexists. split; [apply invalid_chip_id_bin_spec; [exact Hc | exact Hlong] |].
    assert (Hread : read invalid_chip_id_size c = take 2000 c) by reflexivity.
    rewrite Hread.
    split; [reflexivity |].
    split; [apply list_lookup_insert_eq; rewrite length_take;
            unfold CHIP_ID_OFFSET; lia |].
    split; [rewrite length_insert; apply length_take |].
    rewrite lookup_insert_ne; [exact Hc |].
    apply not_eq_sym, artifact_is_a_new_file; [reflexivity | discriminate].
Qed.

Lemma invalid_chip_id_bin_result_witness :
  sample_image !! CHIP_ID_OFFSET = Some 0
  /\ exists out,
       invalid_chip_id_bin sample_fs "build"
         = Ok (<[os_path_join "build" random_bin_name := out]> sample_fs)
       /\ out = <[CHIP_ID_OFFSET := 254]> (take 2000 sample_image)
       /\ out !! CHIP_ID_OFFSET = Some 254
       /\ length out = (2000 `min` length sample_image)%nat
       /\ <[os_path_join "build" random_bin_name := out]> sample_fs
            !! os_path_join "build" bin_name = Some sample_image.
Proof.
  split; [reflexivity |].
  exact (invalid_chip_id_bin_result sample_fs "build" sample_image eq_refl).
Defined.

(** X7: on a source that ends before offset 36, the seek past the end
    fills the gap with zero bytes: the lowered image is the source, zeros
    up to offset 36, and the zero byte written there, 37 bytes in all. *)
Theorem anti_rollback_bin_zero_fills fs dir c :
  fs !! os_path_join dir bin_name = Some c ->
  (length c <= SECURE_VERSION_OFFSET)%nat ->
  anti_rollback_bin fs dir
    = Ok (<[os_path_join dir anti_rollback_bin_name
            := c ++ replicate (SECURE_VERSION_OFFSET - length c) 0 ++ [0]]> fs)
  /\ length (c ++ replicate (SECURE_VERSION_OFFSET - length c) 0 ++ [0]) = 37%nat.
Proof.
  intros Hc Hlen. rewrite (anti_rollback_bin_spec fs dir c Hc).
  unfold write_at, SECURE_VERSION_OFFSET in *. rewrite take_ge by exact Hlen.
  rewrite drop_ge by (simpl; lia). rewrite app_nil_r.
  split; [reflexivity |].
  rewrite !length_app, length_replicate. simpl. lia.
Qed.

Lemma anti_rollback_bin_zero_fills_witness :
  anti_rollback_bin short_fs "build"
    = Ok (<[os_path_join "build" anti_rollback_bin_name
            := short_image ++ replicate (SECURE_VERSION_OFFSET - length short_image) 0
               ++ [0]]> short_fs)
  /\ length (short_image ++ replicate (SECURE_VERSION_OFFSET - length short_image) 0
             ++ [0]) = 37%nat.
Proof.
  apply (anti_rollback_bin_zero_fills short_fs "build" short_image).
  - reflexivity.
  - vm_compute. lia.
Defined.
End CopyEdges.

(** * Further properties of the scenario runner *)

Section RunnerEdges.
Import Runner FaultInjector.
Implicit Types (e : env) (w : world) (files : gmap string bytes) (c : bytes).

Ltac run_step :=
  erewrite bind_run by reflexivity;
  cbn [fs procs vars trace calls draws].

Lemma bind_raise {A B} (m : M A) (k : A -> M B) e w x w' :
  m e w = (Raise x, w') -> bind m k e w = (Raise x, w').
Proof. intros Hm. unfold bind. rewrite Hm. reflexivity. Qed.

Lemma update_fs_raise f e w x :
  f (fs w) = Raise x -> update_fs f e w = (Raise x, w).
Proof. intros Hf. unfold update_fs. rewrite Hf. reflexivity. Qed.

Lemma randint_range (g : rng) (k : nat) (a b : Z) :
  a <= b ->
  randint g k a b = Ok (a + 1 * randbelow g k (b - a + 1))
  /\ a <= a + 1 * randbelow g k (b - a + 1) <= b.
Proof.
  intros Hab. unfold randint, randrange.
  replace ((b + 1 - a + 1 - 1) / 1) with (b - a + 1) by (rewrite Z.div_1_r; lia).
  destruct (Z.leb_spec (b - a + 1) 0) as [Hneg | _]; [lia |].
  split; [reflexivity |].
  unfold randbelow. pose proof (Z.mod_pos_bound (g k) (b - a + 1)). lia.
Qed.

Lemma randint_empty (g : rng) (k : nat) (a b : Z) :
  b < a -> randint g k a b = Raise ValueError.
Proof.
  intros Hab. unfold randint, randrange.
  replace ((b + 1 - a + 1 - 1) / 1) with (b - a + 1) by (rewrite Z.div_1_r; lia).
  destruct (Z.leb_spec (b - a + 1) 0) as [_ | Hpos]; [reflexivity | lia].
Qed.

(** X8: [restart_device_with_random_delay(dut, min_delay, max_delay)].
    With [min_delay <= max_delay] it draws one delay [d] with
    [min_delay <= d <= max_delay], sleeps [d] and then hard-resets the
    device; when the sleep raises, the device is not reset. With
    [min_delay > max_delay] it raises [ValueError] and neither sleeps nor
    resets. *)
Theorem restart_device_with_random_delay_run (min_delay max_delay : Z) e w :
  if min_delay <=? max_delay then
    exists d,
      randint (random e) (draws w) min_delay max_delay = Ok d
      /\ min_delay <= d <= max_delay
      /\ restart_device_with_random_delay min_delay max_delay e w
         = match outcome e (calls w) with
           | Some x =>
               (Raise x,
                {| fs := fs w; procs := procs w; vars := vars w;
                   trace := trace w ++ [EvSleep d];
                   calls := S (calls w); draws := S (draws w) |})
           | None =>
               (match outcome e (S (calls w)) with
                | Some x => Raise x
                | None => Ok tt
                end,
                {| fs := fs w; procs := procs w; vars := vars w;
                   trace := (trace w ++ [EvSleep d]) ++ [EvHardReset];
                   calls := S (S (calls w)); draws := S (draws w) |})
           end
  else
    restart_device_with_random_delay min_delay max_delay e w
    = (Raise ValueError,
       {| fs := fs w; procs := procs w; vars := vars w; trace := trace w;
          calls := calls w; draws := S (draws w) |}).
Proof.
  destruct (Z.leb_spec min_delay max_delay) as [Hle | Hgt].
  - destruct (randint_range (random e) (draws w) min_delay max_delay Hle) as [Hd Hb].
    eexists. split; [exact Hd |]. split; [exact Hb |].
    unfold restart_device_with_random_delay, bind, random_randint.
    rewrite Hd. unfold time_sleep, dut_serial_hard_reset, bind, log, call, ret.
    cbn [fs procs vars trace calls draws].
    destruct (outcome e (calls w)); [reflexivity |].
    cbn [fs procs vars trace calls draws].
    destruct (outcome e (S (calls w))); reflexivity.
  - unfold restart_device_with_random_delay, bind, random_randint.
    rewrite randint_empty by exact Hgt. reflexivity.
Qed.

(** X9: the redirect scenario builds a chain. The device is sent to the
    first redirect service (port 8081), whose [Location] is the URL of the
    second (port 8082), whose [Location] is the URL of the file server
    (port 8001); all three listen on the host address and serve the build
    directory. *)
Theorem redirect_scenario_chain e files :
  let r := test_examples_protocol_advanced_https_ota_example_redirect_url
             (quiet e) (init_world files) in
  let host_ip := host_ip4_by_dest_ip e (capture e 1%nat) in
  let file_server := Services.start_https_server (script_dir e) (binary_path e)
                       host_ip 8001 in
  let first := Services.start_redirect_server (script_dir e) (binary_path e)
                 host_ip 8081 8082 in
  let second := Services.start_redirect_server (script_dir e) (binary_path e)
                  host_ip 8082 8001 in
  map target (procs (snd r)) = [file_server; first; second]
  /\ trace (snd r) !! 7%nat = Some (EvWrite (endpoint first bin_name))
  /\ Services.handler first = Services.RedirectTo (endpoint second bin_name)
  /\ Services.handler second = Services.RedirectTo (endpoint file_server bin_name)
  /\ Services.handler file_server = Services.RangeFileHandler
  /\ expectations (trace (snd r))
     = [ "Loaded app from partition at offset"; ipv4_pattern;
         "Starting Advanced OTA example"; "upgrade successful. Rebooting ...";
         "Loaded app from partition at offset"; "OTA example app_main start" ].
Proof.
  intros r host_ip file_server first second.
  repeat split; reflexivity.
Qed.

(** The finaliser of the redirect scenario, run on three running
    services held by the three handle variables. *)
Lemma three_terminates_stop e w p0 p1 p2 :
  procs w = [p0; p1; p2] ->
  state p0 = Running -> state p1 = Running -> state p2 = Running ->
  vars w thread1 = Some 0%nat -> vars w thread2 = Some 1%nat ->
  vars w thread3 = Some 2%nat ->
  exists w',
    (Process_terminate thread1 ;; Process_terminate thread2 ;;
     Process_terminate thread3)%scenario e w = (Ok tt, w')
    /\ running w' = [].
Proof.
  intros Hp H0 H1 H2 Hv1 Hv2 Hv3.
  destruct w as [fs0 ps vs tr cs ds]. cbn [procs vars] in *. subst ps.
  destruct p0 as [t0 d0 s0], p1 as [t1 d1 s1], p2 as [t2 d2 s2].
  cbn [state] in *. subst s0 s1 s2.
  unfold Process_terminate, bind, get_var, get_proc, set_proc, log.
  cbn [fs procs vars trace calls draws].
  rewrite Hv1. cbn. rewrite Hv2. cbn. rewrite Hv3. cbn.
  eexists. split; reflexivity.
Qed.

(** X11: once the redirect scenario has entered its guarded region (its
    first eleven calls, up to the sleep, returned), no service is left
    running, whichever later call raises. *)
Theorem redirect_scenario_guarded_region e files :
  running (snd (test_examples_protocol_advanced_https_ota_example_redirect_url
                  (quiet_until 11 e) (init_world files))) = [].
Proof.
  unfold test_examples_protocol_advanced_https_ota_example_redirect_url, init_world.
  do 14 run_step.
  match goal with
  | |- running (snd (try_finally ?body ?fin ?e' ?w0)) = [] =>
      assert (Hframe : frame body) by frame_solve;
      destruct (Hframe e' w0) as [Hp Hv];
      unfold try_finally;
      destruct (body e' w0) as [res w1]
  end.
  cbn [fst snd procs vars] in Hp, Hv.
  destruct (three_terminates_stop (quiet_until 11 e) w1 _ _ _ Hp
              eq_refl eq_refl eq_refl) as (w2 & Hfin & Hstop);
    try (rewrite Hv; reflexivity).
  rewrite Hfin. exact Hstop.
Qed.
End RunnerEdges.

Section ScenarioRuns.
Import Runner FaultInjector.
Implicit Types (e : env) (w : world) (files : gmap string bytes) (c : bytes).

Ltac run_step :=
  erewrite bind_run by reflexivity;
  cbn [fs procs vars trace calls draws].

(** X10: each of the fifteen scenarios that guard their one service
    leaves nothing running on any exit path: from a world with no running
    process, whatever the environment makes any call raise, no process is
    running when the scenario ends. *)
Theorem guarded_scenarios_stop_their_service (s : M unit) e w :
  In s single_service_scenarios ->
  running w = [] ->
  running (snd (s e w)) = [].
Proof. apply single_service_scenarios_stop_their_service. Qed.

Lemma guarded_scenarios_stop_their_service_witness :
  In test_examples_protocol_advanced_https_ota_example_ota_resumption
     single_service_scenarios
  /\ running (init_world sample_fs) = []
  /\ running (snd (test_examples_protocol_advanced_https_ota_example_ota_resumption
                     (failing_at 12 OSError sample_env) (init_world sample_fs))) = [].
Proof.
  assert (Hin : In test_examples_protocol_advanced_https_ota_example_ota_resumption
                  single_service_scenarios) by (right; left; reflexivity).
  split; [exact Hin |]. split; [reflexivity |].
  exact (guarded_scenarios_stop_their_service
           test_examples_protocol_advanced_https_ota_example_ota_resumption
           (failing_at 12 OSError sample_env) (init_world sample_fs) Hin eq_refl).
Defined.

(** X12: in the basic scenario a timeout of the address expectation (the
    calls 3, 9 and 15, one per iteration) surfaces as [ValueError]; a
    timeout of any other of its twenty calls surfaces as the timeout
    itself; in every case the service is stopped. *)
Theorem example_scenario_timeouts e files (k : nat) :
  let r := test_examples_protocol_advanced_https_ota_example
             (failing_at k TIMEOUT e) (init_world files) in
  running (snd r) = []
  /\ fst r = if (k =? 3)%nat || (k =? 9)%nat || (k =? 15)%nat then Raise ValueError
             else if (k <? 20)%nat then Raise TIMEOUT
             else Ok tt.
Proof.
  do 20 (destruct k as [| k]; [split; reflexivity |]).
  split; reflexivity.
Qed.

(** X13: the run of the basic scenario in which every expectation is met
    goes through three update cycles against one service, started once
    before the first and terminated once after the last. *)
Theorem example_scenario_three_cycles e files :
  let r := test_examples_protocol_advanced_https_ota_example
             (quiet e) (init_world files) in
  let cycle (first : nat) :=
    [ EvExpect "Loaded app from partition at offset" (Some 30);
      EvExpect ipv4_pattern (Some 30);
      EvExpect "Starting Advanced OTA example" (Some 30);
      EvWrite (url (host_ip4_by_dest_ip e (capture e (S first))) "8001" bin_name);
      EvExpect "upgrade successful. Rebooting ..." (Some 150) ] in
  fst r = Ok tt
  /\ trace (snd r)
     = [EvStart 0] ++ cycle 2%nat ++ cycle 8%nat ++ cycle 14%nat ++ [EvTerminate 0]
  /\ map state (procs (snd r)) = [Terminated].
Proof.
  intros r cycle. repeat split; reflexivity.
Qed.

(** X14: the artifact of the truncated-header scenario. In the run in
    which every expectation is met, the device is sent the URL of
    [truncated_header.bin], and at the end that file is removed again
    while the source image is as it was. When the last expectation times
    out instead, the removal is skipped: the artifact, the first 180 bytes
    of the source, stays in the build directory; the service is stopped
    all the same. *)
Theorem truncated_header_scenario_artifact e files c :
  files !! os_path_join (binary_path e) bin_name = Some c ->
  let out := os_path_join (binary_path e) truncated_header_bin_name in
  let scenario := test_examples_protocol_advanced_https_ota_example_truncated_header in
  let r := scenario (quiet e) (init_world files) in
  let r' := scenario (failing_at 7 TIMEOUT e) (init_world files) in
  fst r = Ok tt
  /\ fs (snd r) = delete out files
  /\ fs (snd r) !! out = None
  /\ fs (snd r) !! os_path_join (binary_path e) bin_name = Some c
  /\ trace (snd r) !! 4%nat
     = Some (EvWrite (url (host_ip4_by_dest_ip e (capture e 3%nat)) "8001"
                        truncated_header_bin_name))
  /\ running (snd r) = []
  /\ fst r' = Raise TIMEOUT
  /\ fs (snd r') !! out = Some (take 180 c)
  /\ running (snd r') = [].
Proof.
  intros Hc out scenario r r'.
  assert (Hne : os_path_join (binary_path e) bin_name <> out)
    by (apply artifact_is_a_new_file; [reflexivity | discriminate]).
  assert (Hr : fst r = Ok tt
               /\ fs (snd r) = delete out (<[out := read truncated_header_bin_size c]> files)
               /\ trace (snd r) !! 4%nat
                  = Some (EvWrite (url (host_ip4_by_dest_ip e (capture e 3%nat)) "8001"
                                     truncated_header_bin_name))
               /\ running (snd r) = []).
  { subst r scenario.
    unfold test_examples_protocol_advanced_https_ota_example_truncated_header, init_world.
    run_step.
    erewrite bind_update_fs by (apply truncated_header_spec; exact Hc).
    cbn [fs procs vars trace calls draws].
    do 3 run_step.
    erewrite try_finally_run; [| do 6 run_step; apply remove_quietly_quiet].
    repeat split; reflexivity. }
  assert (Hr' : fst r' = Raise TIMEOUT
                /\ fs (snd r') = <[out := read truncated_header_bin_size c]> files
                /\ running (snd r') = []).
  { subst r' scenario.
    unfold test_examples_protocol_advanced_https_ota_example_truncated_header, init_world.
    run_step.
    erewrite bind_update_fs by (apply truncated_header_spec; exact Hc).
    cbn [fs procs vars trace calls draws].
    do 3 run_step.
    erewrite try_finally_run;
      [| do 5 run_step; erewrite bind_raise by reflexivity; reflexivity].
    repeat split; reflexivity. }
  destruct Hr as (Hok & Hfs & Hurl & Hrun). destruct Hr' as (Hok' & Hfs' & Hrun').
  split; [exact Hok |].
  split; [rewrite Hfs; apply delete_insert_eq |].
  split; [rewrite Hfs; apply lookup_delete_eq |].
  split; [rewrite Hfs, lookup_delete_ne, lookup_insert_ne by congruence; exact Hc |].
  split; [exact Hurl |]. split; [exact Hrun |].
  split; [exact Hok' |].
  split; [rewrite Hfs'; apply lookup_insert_eq | exact Hrun'].
Qed.

Lemma truncated_header_scenario_artifact_witness :
  long_fs !! os_path_join (binary_path sample_env) bin_name = Some long_image
  /\ fst (test_examples_protocol_advanced_https_ota_example_truncated_header
            (quiet sample_env) (init_world long_fs)) = Ok tt
  /\ fs (snd (test_examples_protocol_advanced_https_ota_example_truncated_header
                (quiet sample_env) (init_world long_fs)))
       !! os_path_join (binary_path sample_env) truncated_header_bin_name = None
  /\ fs (snd (test_examples_protocol_advanced_https_ota_example_truncated_header
                (failing_at 7 TIMEOUT sample_env) (init_world long_fs)))
       !! os_path_join (binary_path sample_env) truncated_header_bin_name
     = Some (take 180 long_image).
Proof.
  destruct (truncated_header_scenario_artifact sample_env long_fs long_image eq_refl)
    as (Hok & _ & Hgone & _ & _ & _ & _ & Hleft & _).
  split; [reflexivity |]. split; [exact Hok |]. split; [exact Hgone | exact Hleft].
Defined.

(** X15: when the source image is missing, the scenarios that prepare
    their artifact first fail with [FileNotFoundError] before anything
    else happens: no service is created, the device is not contacted, no
    file is written. *)
Theorem missing_source_fails_before_setup e files :
  files !! os_path_join (binary_path e) bin_name = None ->
  Forall (fun s : M unit => s e (init_world files)
                            = (Raise FileNotFoundError, init_world files))
    [ test_examples_protocol_advanced_https_ota_example_truncated_bin;
      test_examples_protocol_advanced_https_ota_example_truncated_header;
      test_examples_protocol_advanced_https_ota_example_invalid_chip_id;
      test_examples_protocol_advanced_https_ota_example_verify_min_chip_revision;
      test_examples_protocol_advanced_https_ota_example_verify_max_chip_revision ].
Proof.
  intros Hmissing.
  assert (Hfail : forall (f : string -> gmap string bytes -> result (gmap string bytes))
                         (k : string -> unit -> M unit),
             f (binary_path e) files = Raise FileNotFoundError ->
             bind (ask binary_path)
               (fun dir => bind (update_fs (f dir)) (k dir)) e (init_world files)
             = (Raise FileNotFoundError, init_world files)).
  { intros f k Hf. unfold bind at 1. cbn [ask].
    erewrite bind_raise; [reflexivity |].
    apply update_fs_raise. exact Hf. }
  repeat (apply List.Forall_cons; [| try apply List.Forall_nil]).
  - apply Hfail. unfold truncated_bin, copy_prefix. rewrite Hmissing. reflexivity.
  - apply Hfail. unfold truncated_header, copy_prefix. rewrite Hmissing. reflexivity.
  - apply Hfail. unfold invalid_chip_id_bin. rewrite Hmissing. reflexivity.
  - apply (Hfail (fun dir fs0 =>
                    modify_chip_revision fs0 (os_path_join dir bin_name) None None true)).
    unfold modify_chip_revision. rewrite Hmissing. reflexivity.
  - apply (Hfail (fun dir fs0 =>
                    modify_chip_revision fs0 (os_path_join dir bin_name)
                      (Some 0) (Some 2) false)).
    unfold modify_chip_revision. rewrite Hmissing. reflexivity.
Qed.

Lemma missing_source_fails_before_setup_witness :
  (∅ : gmap string bytes) !! os_path_join (binary_path sample_env) bin_name = None
  /\ test_examples_protocol_advanced_https_ota_example_truncated_bin
       sample_env (init_world ∅)
     = (Raise FileNotFoundError, init_world ∅).
Proof.
  split; [reflexivity |].
  pose proof (missing_source_fails_before_setup sample_env ∅ eq_refl) as Hall.
  apply List.Forall_inv in Hall. exact Hall.
Defined.

(** X16: the partial-download scenario reads the request size from the
    build configuration before it starts anything. A missing
    [EXAMPLE_HTTP_REQUEST_SIZE] is a [TypeError] and a value of 0 a
    [ZeroDivisionError]; in both cases no service is created and the
    device is not contacted. *)
Theorem partial_request_needs_request_size e files c :
  files !! os_path_join (binary_path e) bin_name = Some c ->
  let scenario := test_examples_protocol_advanced_https_ota_example_partial_request in
  scenario (with_sdkconfig (fun _ => None) e) (init_world files)
    = (Raise TypeError, init_world files)
  /\ scenario (with_sdkconfig (fun _ => Some (CfgInt 0)) e) (init_world files)
     = (Raise ZeroDivisionError, init_world files).
Proof.
  intros Hc scenario. subst scenario.
  unfold test_examples_protocol_advanced_https_ota_example_partial_request, init_world.
  split.
  - reflexivity.
  - do 3 run_step.
    erewrite bind_run;
      [| unfold os_path_getsize, Runner.bin_name; cbn [fs binary_path with_sdkconfig];
         rewrite Hc; reflexivity].
    reflexivity.
Qed.

Lemma partial_request_needs_request_size_witness :
  sample_fs !! os_path_join (binary_path sample_env) bin_name = Some sample_image
  /\ test_examples_protocol_advanced_https_ota_example_partial_request
       (with_sdkconfig (fun _ => None) sample_env) (init_world sample_fs)
     = (Raise TypeError, init_world sample_fs)
  /\ test_examples_protocol_advanced_https_ota_example_partial_request
       (with_sdkconfig (fun _ => Some (CfgInt 0)) sample_env) (init_world sample_fs)
     = (Raise ZeroDivisionError, init_world sample_fs).
Proof.
  split; [reflexivity |].
  exact (partial_request_needs_request_size sample_env sample_fs sample_image eq_refl).
Defined.
End ScenarioRuns.

Section MoreScenarioRuns.
Import Runner FaultInjector.
Implicit Types (e : env) (w : world) (files : gmap string bytes) (c : bytes).

Ltac run_step :=
  erewrite bind_run by reflexivity;
  cbn [fs procs vars trace calls draws].

(** X17: the access-point credentials are sent only when the build
    option [EXAMPLE_WIFI_SSID_PWD_FROM_STDIN] is the boolean [True]. Then
    the NimBLE scenario waits for the prompt (with no timeout of its own)
    and writes "ssid password" before it expects the address; with any
    other value, or none, it goes straight to the address. *)
Theorem nimble_scenario_credentials e files (v : option cfgval) :
  let r := test_examples_protocol_advanced_https_ota_example_nimble_gatts
             (quiet (with_sdkconfig (fun _ => v) e)) (init_world files) in
  let ssid := env_config_variable e "wifi_high_traffic" "ap_ssid" in
  let password := env_config_variable e "wifi_high_traffic" "ap_password" in
  fst r = Ok tt
  /\ running (snd r) = []
  /\ if is_True v then
       firstn 5 (trace (snd r))
       = [ EvStart 0;
           EvExpect "Loaded app from partition at offset" (Some 30);
           EvExpect "Please input ssid password:" None;
           EvWrite (ssid +:+ " " +:+ password);
           EvExpect ipv4_pattern (Some 30) ]
     else
       firstn 3 (trace (snd r))
       = [ EvStart 0;
           EvExpect "Loaded app from partition at offset" (Some 30);
           EvExpect ipv4_pattern (Some 30) ]
       /\ ~ In "Please input ssid password:" (expectations (trace (snd r))).
Proof.
  intros r ssid password.
  assert (Hother : is_True v = false ->
            fst r = Ok tt /\ running (snd r) = []
            /\ firstn 3 (trace (snd r))
               = [ EvStart 0;
                   EvExpect "Loaded app from partition at offset" (Some 30);
                   EvExpect ipv4_pattern (Some 30) ]
            /\ expectations (trace (snd r))
               = [ "Loaded app from partition at offset"; ipv4_pattern;
                   "Starting Advanced OTA example";
                   "upgrade successful. Rebooting ...";
                   "Loaded app from partition at offset";
                   "OTA example app_main start" ]).
  { intros Hv. subst r.
    destruct v as [[z | [] | s] |]; try discriminate Hv; repeat split; reflexivity. }
  destruct v as [[z | [] | s] |]; cbn [is_True].
  2:{ repeat split; reflexivity. }
  all: destruct (Hother eq_refl) as (Hok & Hrun & Hfirst & Hexp);
    split; [exact Hok |]; split; [exact Hrun |]; split; [exact Hfirst |];
    rewrite Hexp; intros Hin;
    repeat (destruct Hin as [Hin | Hin]; [discriminate Hin |]); exact Hin.
Qed.

(** X18: the anti-rollback scenario erases and flashes the device before
    it prepares its artifact: when the source image is missing it fails
    with [FileNotFoundError] after those two steps, with no service
    created and no file written. *)
Theorem anti_rollback_scenario_missing_source e files :
  files !! os_path_join (binary_path e) bin_name = None ->
  test_examples_protocol_advanced_https_ota_example_anti_rollback
    (quiet e) (init_world files)
  = (Raise FileNotFoundError,
     {| fs := files; procs := []; vars := fun _ => None;
        trace := [EvEraseFlash; EvFlash]; calls := 2; draws := 0 |}).
Proof.
  intros Hmissing.
  unfold test_examples_protocol_advanced_https_ota_example_anti_rollback, init_world.
  do 3 run_step.
  erewrite bind_raise; [reflexivity |].
  apply update_fs_raise. cbn [fs binary_path quiet].
  unfold anti_rollback_bin. rewrite Hmissing. reflexivity.
Qed.

Lemma anti_rollback_scenario_missing_source_witness :
  (∅ : gmap string bytes) !! os_path_join (binary_path sample_env) bin_name = None
  /\ test_examples_protocol_advanced_https_ota_example_anti_rollback
       (quiet sample_env) (init_world ∅)
     = (Raise FileNotFoundError,
        {| fs := ∅; procs := []; vars := fun _ => None;
           trace := [EvEraseFlash; EvFlash]; calls := 2; draws := 0 |}).
Proof.
  split; [reflexivity |].
  exact (anti_rollback_scenario_missing_source sample_env ∅ eq_refl).
Defined.

(** X19: in the resumption scenario, when the start of the second
    service raises (the call number 12), the finaliser calls [terminate]
    on a process that was never started, and the [AttributeError] of that
    call replaces the original exception; the first service was already
    terminated, so nothing is running. When the start of the first
    service raises (the call number 2), the exception leaves the scenario
    as it is, before the guarded region. *)
Theorem resumption_scenario_failed_starts e files :
  let scenario := test_examples_protocol_advanced_https_ota_example_ota_resumption in
  let r := scenario (failing_at 12 OSError e) (init_world files) in
  let r' := scenario (failing_at 2 OSError e) (init_world files) in
  fst r = Raise AttributeError
  /\ map state (procs (snd r)) = [Terminated; Created]
  /\ running (snd r) = []
  /\ fst r' = Raise OSError
  /\ map state (procs (snd r')) = [Created]
  /\ trace (snd r') = [EvErasePartition "nvs"].
Proof.
  intros scenario r r'. repeat split; reflexivity.
Qed.
End MoreScenarioRuns.
